(** * yaml-iframe-preview: a shallow embedding of src/src/extension.ts

    The extension opens a webview panel next to a YAML editor, embeds an
    iframe whose source is a remote HTTPS page, a page served on loopback,
    or the bundled demo page, and forwards the document text to it with a
    debounced [postMessage].  This file embeds the pieces of [extension.ts]
    the specification talks about:
    - [isHttpsUrl] and [resolveAppSrc], on top of a model of the WHATWG
      [URL] constructor (the platform's, not the repository's);
    - the HTTP handler of [startDemoServer];
    - the command handler of [activate] (registry [previewByDoc], panel,
      server, subscription, dispose handler) as a state and error monad;
    - [debounce] and the change listener, as a timed event simulation. *)

From Stdlib Require Import String Ascii List ZArith Lia Bool.
From Stdlib Require Import DecimalN.
From stdpp Require Import base gmap strings.

Import ListNotations.
Open Scope bool_scope.

(* ------------------------------------------------------------------ *)
(** ** Character and list helpers *)

Definition achar_eqb (a b : ascii) : bool := Ascii.eqb a b.

Definition in_chars (cs : list ascii) (c : ascii) : bool :=
  existsb (achar_eqb c) cs.

Fixpoint take_while (p : ascii -> bool) (l : list ascii) : list ascii :=
  match l with
  | [] => []
  | c :: r => if p c then c :: take_while p r else []
  end.

Fixpoint drop_while (p : ascii -> bool) (l : list ascii) : list ascii :=
  match l with
  | [] => []
  | c :: r => if p c then drop_while p r else l
  end.

(** [split_at_first c l] is [Some (before, after)] when [c] occurs in [l]. *)
Fixpoint split_at_first (c : ascii) (l : list ascii)
  : option (list ascii * list ascii) :=
  match l with
  | [] => None
  | d :: r =>
      if achar_eqb d c then Some ([], r)
      else match split_at_first c r with
           | Some (b, a) => Some (d :: b, a)
           | None => None
           end
  end.

(** The part of [l] after the last occurrence of [c] (all of [l] if none). *)
Definition after_last (c : ascii) (l : list ascii) : list ascii :=
  rev (take_while (fun d => negb (achar_eqb d c)) (rev l)).

Definition is_upper (c : ascii) : bool :=
  (65 <=? nat_of_ascii c)%nat && (nat_of_ascii c <=? 90)%nat.
Definition is_lower (c : ascii) : bool :=
  (97 <=? nat_of_ascii c)%nat && (nat_of_ascii c <=? 122)%nat.
Definition is_digit (c : ascii) : bool :=
  (48 <=? nat_of_ascii c)%nat && (nat_of_ascii c <=? 57)%nat.
Definition is_alpha (c : ascii) : bool := is_upper c || is_lower c.

Definition to_lower (c : ascii) : ascii :=
  if is_upper c then ascii_of_nat (nat_of_ascii c + 32) else c.

Definition lower (l : list ascii) : list ascii := map to_lower l.

(** Decimal digits, through the Standard Library's [Decimal.uint]. *)
Fixpoint uint_chars (d : Decimal.uint) : list ascii :=
  match d with
  | Decimal.Nil => []
  | Decimal.D0 d => "0"%char :: uint_chars d
  | Decimal.D1 d => "1"%char :: uint_chars d
  | Decimal.D2 d => "2"%char :: uint_chars d
  | Decimal.D3 d => "3"%char :: uint_chars d
  | Decimal.D4 d => "4"%char :: uint_chars d
  | Decimal.D5 d => "5"%char :: uint_chars d
  | Decimal.D6 d => "6"%char :: uint_chars d
  | Decimal.D7 d => "7"%char :: uint_chars d
  | Decimal.D8 d => "8"%char :: uint_chars d
  | Decimal.D9 d => "9"%char :: uint_chars d
  end.

Definition digit_uint (c : ascii) : option (Decimal.uint -> Decimal.uint) :=
  match nat_of_ascii c with
  | 48 => Some Decimal.D0 | 49 => Some Decimal.D1 | 50 => Some Decimal.D2
  | 51 => Some Decimal.D3 | 52 => Some Decimal.D4 | 53 => Some Decimal.D5
  | 54 => Some Decimal.D6 | 55 => Some Decimal.D7 | 56 => Some Decimal.D8
  | 57 => Some Decimal.D9 | _ => None
  end%nat.

Fixpoint chars_uint (l : list ascii) : option Decimal.uint :=
  match l with
  | [] => Some Decimal.Nil
  | c :: r =>
      match digit_uint c, chars_uint r with
      | Some f, Some u => Some (f u)
      | _, _ => None
      end
  end.

(** JavaScript's [String(n)] for a non-negative integer. *)
Definition N_chars (n : N) : list ascii := uint_chars (N.to_uint n).
Definition N_to_string (n : N) : string := string_of_list_ascii (N_chars n).

(* ------------------------------------------------------------------ *)
(** ** The platform [URL] constructor

    A model of the WHATWG URL parser, restricted to what [extension.ts]
    observes ([protocol] and [origin]): input preprocessing (leading and
    trailing C0 controls and spaces stripped, tabs and newlines removed),
    the scheme, and for the special schemes other than [file] the
    authority (slashes and backslashes skipped, userinfo dropped, host up to
    the first [:], port digits with the scheme's default port elided).
    Hosts are taken as written, lower-cased; IPv6 literals, percent-decoding
    and IPv4 number normalisation are not modelled.  Parse failure (the
    constructor throwing a [TypeError]) is [None]. *)
Module URL.

Record t := mk { protocol : string; host : string; port : string; origin : string }.

Definition c0_or_space (c : ascii) : bool := (nat_of_ascii c <=? 32)%nat.
Definition tab_or_newline (c : ascii) : bool :=
  in_chars ["009"; "010"; "013"]%char c.

Definition preprocess (l : list ascii) : list ascii :=
  List.filter (fun c => negb (tab_or_newline c))
    (rev (drop_while c0_or_space (rev (drop_while c0_or_space l)))).

Definition scheme_char (c : ascii) : bool :=
  is_alpha c || is_digit c || in_chars ["+"; "-"; "."]%char c.

Definition default_port (scheme : list ascii) : option (option N) :=
  if String.eqb (string_of_list_ascii scheme) ("http") then Some (Some 80%N)
  else if String.eqb (string_of_list_ascii scheme) ("https") then Some (Some 443%N)
  else if String.eqb (string_of_list_ascii scheme) ("ws") then Some (Some 80%N)
  else if String.eqb (string_of_list_ascii scheme) ("wss") then Some (Some 443%N)
  else if String.eqb (string_of_list_ascii scheme) ("ftp") then Some (Some 21%N)
  else if String.eqb (string_of_list_ascii scheme) ("file") then Some None
  else None.

Definition forbidden_host_char (c : ascii) : bool :=
  c0_or_space c ||
  in_chars ["#"; "%"; "/"; ":"; "<"; ">"; "?"; "@"; "["; "\"; "]"; "^"; "|"]%char c.

Definition authority_end (c : ascii) : bool := in_chars ["/"; "\"; "?"; "#"]%char c.
Definition is_slash (c : ascii) : bool := in_chars ["/"; "\"]%char c.

(** Port state: the digits after the host's [:], as the serialised port. *)
Definition parse_port (dflt : N) (digits : list ascii) : option (list ascii) :=
  match digits with
  | [] => Some []
  | _ =>
      match chars_uint digits with
      | None => None
      | Some u =>
          let v := N.of_uint u in
          if (65535 <? v)%N then None
          else if (v =? dflt)%N then Some [] else Some (N_chars v)
      end
  end.

(** Authority of a special URL: host and serialised port. *)
Definition parse_authority (dflt : N) (rest : list ascii)
  : option (list ascii * list ascii) :=
  let auth := take_while (fun c => negb (authority_end c)) (drop_while is_slash rest) in
  let hostport := after_last "@"%char auth in
  let '(h, p) := match split_at_first ":"%char hostport with
                 | Some (h, p) => (h, p)
                 | None => (hostport, [])
                 end in
  match h with
  | [] => None
  | _ =>
      if existsb forbidden_host_char h then None
      else match parse_port dflt p with
           | Some ps => Some (lower h, ps)
           | None => None
           end
  end.

Fixpoint scan_scheme (l : list ascii) : option (list ascii * list ascii) :=
  match l with
  | [] => None
  | c :: r =>
      if achar_eqb c ":" then Some ([], r)
      else if scheme_char c then
        match scan_scheme r with
        | Some (s, rest) => Some (c :: s, rest)
        | None => None
        end
      else None
  end.

Definition origin_of (scheme host port : list ascii) : list ascii :=
  scheme ++ list_ascii_of_string "://" ++ host ++
  match port with [] => [] | _ => ":"%char :: port end.

(** [new URL(input)] *)
Definition parse (input : string) : option t :=
  let l := preprocess (list_ascii_of_string input) in
  match l with
  | c :: _ =>
      if negb (is_alpha c) then None else
      match scan_scheme l with
      | None => None
      | Some (s0, rest) =>
          let s := lower s0 in
          let proto := string_of_list_ascii (s ++ [":"%char]) in
          match default_port s with
          | Some (Some dflt) =>
              match parse_authority dflt rest with
              | Some (h, p) =>
                  Some (mk proto (string_of_list_ascii h) (string_of_list_ascii p)
                          (string_of_list_ascii (origin_of s h p)))
              | None => None
              end
          | Some None => Some (mk proto "" "" "null")
          | None => Some (mk proto "" "" "null")
          end
      end
  | [] => None
  end.

End URL.

(* ------------------------------------------------------------------ *)
(** ** [isHttpsUrl] and [resolveAppSrc] *)

(** [function isHttpsUrl(value: string | undefined)]: [!value] holds for
    [undefined] and for the empty string. *)
Definition isHttpsUrl (value : option string) : bool :=
  match value with
  | None => false
  | Some v =>
      if String.eqb v "" then false
      else match URL.parse v with
           | Some u => String.eqb (URL.protocol u) "https:"
           | None => false   (* catch { return false; } *)
           end
  end.

(** The parts of [vscode.Webview] and [ExtensionContext] that
    [resolveAppSrc] reads. *)
Record Webview := mkWebview {
  cspSource : string;
  asWebviewUri : string -> string
}.

Record AppSrc := mkAppSrc { src : string; frameSrcCsp : string; targetOrigin : string }.

(** The three [return] statements of [resolveAppSrc], each tagged with the
    content-source variant it produces. *)
Inductive ContentSource :=
| Remote (r : AppSrc)
| LocalServed (r : AppSrc)
| LocalBundled (r : AppSrc).

Definition source_payload (c : ContentSource) : AppSrc :=
  match c with Remote r | LocalServed r | LocalBundled r => r end.

(** [new URL(x).origin] where the code only calls it on a string that has
    already passed [isHttpsUrl] (or on [demoUrl]); a failed parse would
    throw, modelled here as the origin ["null"] (never reached on the
    [isHttpsUrl] branch). *)
Definition url_origin (s : string) : string :=
  match URL.parse s with Some u => URL.origin u | None => "null" end.

(** [vscode.Uri.joinPath(context.extensionUri, "src", "./demo/index.html")] *)
Definition bundled_demo_path (extensionUri : string) : string :=
  (extensionUri ++ "/src/demo/index.html")%string.

(** The fallback [return] of [resolveAppSrc]. *)
Definition bundled_appsrc (webview : Webview) (extensionUri : string) : AppSrc :=
  mkAppSrc (asWebviewUri webview (bundled_demo_path extensionUri))
    (cspSource webview ++ " vscode-resource:")%string "*".

Definition resolveAppSrc_tagged (webview : Webview) (extensionUri : string)
    (remoteUrl : string) (demoUrl : option string) (allowHttp : bool)
  : ContentSource :=
  if isHttpsUrl (Some remoteUrl) then
    let origin := url_origin remoteUrl in
    Remote (mkAppSrc remoteUrl origin origin)
  else
    match demoUrl with
    | Some d =>
        if allowHttp && negb (String.eqb d "") then
          let origin := url_origin d in
          LocalServed (mkAppSrc d origin origin)
        else
          LocalBundled (bundled_appsrc webview extensionUri)
    | None =>
        LocalBundled (bundled_appsrc webview extensionUri)
    end.

Definition resolveAppSrc webview extensionUri remoteUrl demoUrl allowHttp : AppSrc :=
  source_payload (resolveAppSrc_tagged webview extensionUri remoteUrl demoUrl allowHttp).


(* ------------------------------------------------------------------ *)
(** ** The request handler of [startDemoServer] *)

(** [String.prototype.split] with a one-character separator. *)
Fixpoint split_chars (sep : ascii) (l : list ascii) : list (list ascii) :=
  match l with
  | [] => [[]]
  | c :: r =>
      if achar_eqb c sep then [] :: split_chars sep r
      else match split_chars sep r with
           | x :: xs => (c :: x) :: xs
           | [] => [[c]]
           end
  end.

Definition js_split (sep : ascii) (s : string) : list string :=
  map string_of_list_ascii (split_chars sep (list_ascii_of_string s)).

(** [const urlPath = req.url ? req.url.split("?")[0] : "/";]
    ([req.url] is [undefined] or a string, and [""] is falsy). *)
Definition request_path (url : option string) : string :=
  match url with
  | Some u => if String.eqb u "" then "/" else hd "" (js_split "?" u)
  | None => "/"
  end.

Record Response := mkResponse {
  statusCode : Z;
  resp_headers : list (string * string);
  resp_body : string
}.

(** The file system at the moment of a read: the contents of a path, or a
    read failure ([fs.readFile] rejecting). *)
Definition FileSystem := string -> option string.

(** [vscode.Uri.joinPath(context.extensionUri, "src", "demo", "index.html").fsPath] *)
Definition demo_fs_path (extensionUri : string) : string :=
  (extensionUri ++ "/src/demo/index.html")%string.

Definition html_headers : list (string * string) :=
  [("Content-Type", "text/html; charset=utf-8")].

(** The [http.createServer] callback.  [res.statusCode] starts at 200;
    the handler re-reads the file on every request. *)
Definition handle_request (demoPath : string) (url : option string) (fs : FileSystem)
  : Response :=
  let urlPath := request_path url in
  if negb (String.eqb urlPath "/") && negb (String.eqb urlPath "/index.html") then
    mkResponse 404 [] "Not Found"
  else
    match fs demoPath with
    | Some html => mkResponse 200 html_headers html
    | None => mkResponse 500 [] "Failed to load demo"
    end.

(** A server's life: requests arrive one after another, each with the file
    system as it is at that moment. *)
Definition serve (demoPath : string) (reqs : list (option string * FileSystem))
  : list Response :=
  map (fun '(u, fs) => handle_request demoPath u fs) reqs.


(* ------------------------------------------------------------------ *)
(** ** The [yamlIframePreview.open] command

    The command handler of [activate], as a state and error monad over the
    extension's world: the registry [previewByDoc], the panels the host has
    created, the servers [startDemoServer] created, the document
    subscriptions, and the notices shown.  The answers of the host (active
    editor, configuration, the port [listen(0)] obtains or its failure) are
    an environment.  Each [await] is taken to complete before the next
    command runs: one command invocation is one atomic transition. *)

Record Doc := mkDoc {
  doc_uri : string;        (* doc.uri.toString() *)
  doc_fsPath : string;     (* doc.uri.fsPath *)
  doc_languageId : string
}.

(** [{ panel, disposable }], the value stored in [previewByDoc]. *)
Record Entry := mkEntry { entry_panel : nat; entry_disposable : nat }.

(** What the [panel.onDidDispose] callback captured. *)
Record DisposeHandler := mkHandler {
  h_disposable : nat;
  h_demoServer : option nat;
  h_key : string
}.

Record Panel := mkPanel {
  panel_key : string;
  panel_html : option AppSrc;   (* the src / frame-src / targetOrigin interpolated in [webview.html] *)
  panel_disposed : bool;
  panel_reveals : nat;
  panel_on_dispose : option DisposeHandler
}.

Record Server := mkServer { srv_listening : bool; srv_port : option N }.

(** A [onDidChangeTextDocument] subscription, with the [debounceMs] its
    [sendUpdate] was built with. *)
Record Subscription := mkSub { sub_key : string; sub_delay : Z; sub_active : bool }.

Record World := mkWorld {
  previewByDoc : gmap string Entry;
  panels : list Panel;
  servers : list Server;
  subs : list Subscription;
  notices : list string
}.

Record Env := mkEnv {
  activeEditor : option Doc;
  cfg_remoteUrl : option string;
  cfg_debounceMs : option Z;
  cfg_allowHttp : option bool;
  listen_result : option N;     (* port obtained by [server.listen(0, ...)], or its error *)
  extensionUri : string;
  new_webview : Webview         (* the webview of a freshly created panel *)
}.

Inductive Result (A : Type) := Ok (a : A) | Throw (msg : string).
Arguments Ok {A} a.
Arguments Throw {A} msg.

Definition M (A : Type) := World -> Result A * World.

Definition retM {A} (a : A) : M A := fun w => (Ok a, w).
Definition bindM {A B} (m : M A) (k : A -> M B) : M B :=
  fun w => match m w with
           | (Ok a, w') => k a w'
           | (Throw e, w') => (Throw e, w')
           end.
Definition modifyM (f : World -> World) : M unit := fun w => (Ok tt, f w).
Definition getsM {A} (f : World -> A) : M A := fun w => (Ok (f w), w).

Notation "'let!' x ':=' m 'in' k" := (bindM m (fun x => k))
  (at level 200, x name, m at level 100, k at level 200).

Definition set_previewByDoc (r : gmap string Entry) (w : World) : World :=
  mkWorld r (panels w) (servers w) (subs w) (notices w).
Definition set_panels (ps : list Panel) (w : World) : World :=
  mkWorld (previewByDoc w) ps (servers w) (subs w) (notices w).
Definition set_servers (ss : list Server) (w : World) : World :=
  mkWorld (previewByDoc w) (panels w) ss (subs w) (notices w).
Definition set_subs (ss : list Subscription) (w : World) : World :=
  mkWorld (previewByDoc w) (panels w) (servers w) ss (notices w).
Definition add_notice (n : string) (w : World) : World :=
  mkWorld (previewByDoc w) (panels w) (servers w) (subs w) (notices w ++ [n]).

Definition update_panel (i : nat) (f : Panel -> Panel) (w : World) : World :=
  match panels w !! i with
  | Some p => set_panels (<[i := f p]> (panels w)) w
  | None => w
  end.

Definition with_html (a : AppSrc) (p : Panel) : Panel :=
  mkPanel (panel_key p) (Some a) (panel_disposed p) (panel_reveals p) (panel_on_dispose p).
Definition with_reveal (p : Panel) : Panel :=
  mkPanel (panel_key p) (panel_html p) (panel_disposed p) (S (panel_reveals p)) (panel_on_dispose p).
Definition with_handler (h : DisposeHandler) (p : Panel) : Panel :=
  mkPanel (panel_key p) (panel_html p) (panel_disposed p) (panel_reveals p) (Some h).
Definition as_disposed (p : Panel) : Panel :=
  mkPanel (panel_key p) (panel_html p) true (panel_reveals p) (panel_on_dispose p).

Definition lower_string (s : string) : string :=
  string_of_list_ascii (lower (list_ascii_of_string s)).

Definition ends_with (s suffix : string) : bool :=
  let l := list_ascii_of_string s in
  let m := length (list_ascii_of_string suffix) in
  (m <=? length l)%nat &&
  String.eqb (string_of_list_ascii (skipn (length l - m) l)) suffix.

Definition isYaml (doc : Doc) : bool :=
  String.eqb (doc_languageId doc) "yaml" ||
  ends_with (lower_string (doc_fsPath doc)) ".yml" ||
  ends_with (lower_string (doc_fsPath doc)) ".yaml".

(** [cfg.get<T>(name, default)] *)
Definition cfg_get {A} (v : option A) (default : A) : A :=
  match v with Some x => x | None => default end.

(** [Math.max(0, cfg.get<number>("debounceMs", 300))] *)
Definition effective_debounceMs (v : option Z) : Z := Z.max 0 (cfg_get v 300%Z).

(** [createWebviewPanel]: a fresh panel, its index is its handle. *)
Definition createWebviewPanel (key : string) : M nat :=
  fun w => (Ok (length (panels w)),
            set_panels (panels w ++ [mkPanel key None false 0 None]) w).

(** [startDemoServer]: [http.createServer], then [listen(0, "127.0.0.1")];
    a listen error rejects the promise.  A TCP server's [address()] is
    always an object, so the "failed to bind" branch is not reachable. *)
Definition loopback_url (port : N) : string :=
  ("http://127.0.0.1:" ++ N_to_string port ++ "/index.html")%string.

Definition startDemoServer (env : Env) : M (nat * string) :=
  fun w =>
    let sid := length (servers w) in
    match listen_result env with
    | Some port => (Ok (sid, loopback_url port),
                    set_servers (servers w ++ [mkServer true (Some port)]) w)
    | None => (Throw "listen error", set_servers (servers w ++ [mkServer false None]) w)
    end.

Definition subscribe (key : string) (delay : Z) : M nat :=
  fun w => (Ok (length (subs w)), set_subs (subs w ++ [mkSub key delay true]) w).

Definition open_cmd (env : Env) : M unit :=
  match activeEditor env with
  | None => modifyM (add_notice "No active editor.")
  | Some doc =>
      if negb (isYaml doc) then
        modifyM (add_notice "Open a YAML (.yml/.yaml) file to use this preview.")
      else
        let key := doc_uri doc in
        let! existing := getsM (fun w => previewByDoc w !! key) in
        match existing with
        | Some e => modifyM (update_panel (entry_panel e) with_reveal)
        | None =>
            let! panel := createWebviewPanel key in
            let remoteUrl := cfg_get (cfg_remoteUrl env) "" in
            let debounceMs := effective_debounceMs (cfg_debounceMs env) in
            let allowHttp := cfg_get (cfg_allowHttp env) true in
            let! started :=
              (if negb (isHttpsUrl (Some remoteUrl)) then
                 let! s := startDemoServer env in retM (Some s)
               else retM None) in
            let demoServer := option_map fst started in
            let demoUrl := option_map snd started in
            let! _ := modifyM (update_panel panel
                        (with_html (resolveAppSrc (new_webview env) (extensionUri env)
                                      remoteUrl demoUrl allowHttp))) in
            let! disposable := subscribe key debounceMs in
            let! _ := modifyM (update_panel panel
                        (with_handler (mkHandler disposable demoServer key))) in
            modifyM (fun w => set_previewByDoc (<[key := mkEntry panel disposable]> (previewByDoc w)) w)
        end
  end.

(** The host disposing a panel fires its [onDidDispose] callback:
    [disposable.dispose(); if (demoServer) demoServer.close();
     previewByDoc.delete(key);] *)
Definition stop_sub (i : nat) (w : World) : World :=
  match subs w !! i with
  | Some s => set_subs (<[i := mkSub (sub_key s) (sub_delay s) false]> (subs w)) w
  | None => w
  end.
Definition close_server (i : nat) (w : World) : World :=
  match servers w !! i with
  | Some s => set_servers (<[i := mkServer false (srv_port s)]> (servers w)) w
  | None => w
  end.

Definition dispose_panel (i : nat) : M unit :=
  fun w =>
    match panels w !! i with
    | Some p =>
        if panel_disposed p then (Ok tt, w) else
        let w1 := update_panel i as_disposed w in
        match panel_on_dispose p with
        | Some h =>
            let w2 := stop_sub (h_disposable h) w1 in
            let w3 := match h_demoServer h with Some s => close_server s w2 | None => w2 end in
            (Ok tt, set_previewByDoc (delete (h_key h) (previewByDoc w3)) w3)
        | None => (Ok tt, w1)
        end
    | None => (Ok tt, w)
    end.

Definition world0 : World := mkWorld ∅ [] [] [] [].

(** Successive invocations of the open command, each with its own
    environment (active editor and configuration at that moment). *)
Fixpoint run_opens (envs : list Env) (w : World) : World :=
  match envs with
  | [] => w
  | env :: r => run_opens r (snd (open_cmd env w))
  end.

(* ------------------------------------------------------------------ *)
(** ** The change streamer: [debounce], [sendUpdate] and the listener

    A timed simulation of one session.  Time is in whole milliseconds.
    [debounce] keeps one [setTimeout] handle: each call clears it and
    starts a new one, so the session has at most one pending deadline.
    Node's [setTimeout] replaces a delay below 1 or above 2147483647 by 1.
    A timer whose deadline is not after an event's time fires before that
    event is processed.  When the timer fires, [sendUpdate] calls
    [panel.webview.postMessage] with the document's text and version at
    that moment; the simulation records each such call. *)
Module Streamer.

Definition TIMEOUT_MAX : Z := 2147483647.

(** Node's [setTimeout] delay coercion. *)
Definition node_timeout (delayMs : Z) : Z :=
  if (1 <=? delayMs)%Z && (delayMs <=? TIMEOUT_MAX)%Z then delayMs else 1%Z.

Record Post := mkPost {
  post_time : Z;
  post_version : Z;            (* payload.version = doc.version *)
  post_yaml : string;          (* payload.yaml = doc.getText() *)
  post_after_dispose : bool    (* the panel was already disposed *)
}.

Record TState := mkT {
  pending : option Z;          (* deadline of the debounce timer, if armed *)
  doc_version : Z;
  doc_text : string;
  listening : bool;            (* the onDidChangeTextDocument subscription *)
  disposed : bool;             (* the panel *)
  posted : list Post
}.

Inductive Event :=
| Change (t : Z) (uri : string) (version : Z) (text : string)
| DisposePanel (t : Z).

Definition event_time (e : Event) : Z :=
  match e with Change t _ _ _ => t | DisposePanel t => t end.

Section Session.

Variable key : string.        (* doc.uri.toString() of the session *)
Variable debounceMs : Z.      (* the delay given to [debounce] *)

(** The [setTimeout] callback: [fn.apply(this, args)], i.e. the post. *)
Definition fire (due : Z) (st : TState) : TState :=
  mkT None (doc_version st) (doc_text st) (listening st) (disposed st)
      (posted st ++ [mkPost due (doc_version st) (doc_text st) (disposed st)]).

(** Let the timer fire if its deadline is reached by time [t]. *)
Definition advance (t : Z) (st : TState) : TState :=
  match pending st with
  | Some due => if (due <=? t)%Z then fire due st else st
  | None => st
  end.

(** [sendUpdate()] at time [t]: [clearTimeout(timer); timer = setTimeout(...)]. *)
Definition sendUpdate (t : Z) (st : TState) : TState :=
  mkT (Some (t + node_timeout debounceMs)%Z) (doc_version st) (doc_text st)
      (listening st) (disposed st) (posted st).

Definition set_doc (v : Z) (x : string) (st : TState) : TState :=
  mkT (pending st) v x (listening st) (disposed st) (posted st).

Definition step (st : TState) (e : Event) : TState :=
  let st1 := advance (event_time e) st in
  match e with
  | Change t u v x =>
      if String.eqb u key then
        let st2 := set_doc v x st1 in
        (* if (e.document.uri.toString() !== key) return; sendUpdate(); *)
        if listening st2 then sendUpdate t st2 else st2
      else st1
  | DisposePanel _ =>
      (* disposable.dispose(); the timer is left as it is *)
      mkT (pending st1) (doc_version st1) (doc_text st1) false true (posted st1)
  end.

Definition run (es : list Event) (st : TState) : TState := fold_left step es st.

(** Let time pass until no timer is pending. *)
Definition flush (st : TState) : TState :=
  match pending st with Some due => fire due st | None => st end.

(** Session creation at time [t0]: subscribe, and the initial [sendUpdate()]. *)
Definition session_start (t0 version : Z) (text : string) : TState :=
  sendUpdate t0 (mkT None version text true false []).

(** A burst: change notifications for the session's document, given as
    (time, version, text). *)
Definition changes (ws : list (Z * Z * string)) : list Event :=
  map (fun '(t, v, x) => Change t key v x) ws.

(** Successive notifications less than [debounceMs] apart, the first one
    at most [debounceMs] after [t]. *)
Fixpoint close_after (t : Z) (ws : list (Z * Z * string)) : Prop :=
  match ws with
  | [] => True
  | (t', _, _) :: r => (0 <= t' - t < debounceMs)%Z /\ close_after t' r
  end.

End Session.

(** Number of posts made or still owed. *)
Definition owed (st : TState) : nat :=
  length (posted st) + match pending st with Some _ => 1 | None => 0 end.

Fixpoint last_change (w : Z * Z * string) (ws : list (Z * Z * string)) : Z * Z * string :=
  match ws with [] => w | w' :: r => last_change w' r end.

End Streamer.

(* ------------------------------------------------------------------ *)
(** ** [escapeHtml] and [getNonce] *)

(** [s.replace(/c/g, rep)] for a one-character pattern. *)
Definition replace_char (c : ascii) (rep : list ascii) (l : list ascii) : list ascii :=
  flat_map (fun d => if achar_eqb d c then rep else [d]) l.

Definition dquote : ascii := "034"%char.

(** [escapeHtml]: five global replacements, in the source's order. *)
Definition escapeHtml_chars (l : list ascii) : list ascii :=
  replace_char "'"%char (list_ascii_of_string "&#039;")
    (replace_char dquote (list_ascii_of_string "&quot;")
      (replace_char ">"%char (list_ascii_of_string "&gt;")
        (replace_char "<"%char (list_ascii_of_string "&lt;")
          (replace_char "&"%char (list_ascii_of_string "&amp;") l)))).

Definition escapeHtml (input : string) : string :=
  string_of_list_ascii (escapeHtml_chars (list_ascii_of_string input)).

(** The characters [escapeHtml] rewrites. *)
Definition html_special (c : ascii) : bool := in_chars ["&"; "<"; ">"; dquote; "'"]%char c.

(** Decoding of the five character references [escapeHtml] emits (used to
    show that no information is lost). *)
Fixpoint unescape_chars (l : list ascii) : list ascii :=
  match l with
  | "&" :: "a" :: "m" :: "p" :: ";" :: r => "&" :: unescape_chars r
  | "&" :: "l" :: "t" :: ";" :: r => "<" :: unescape_chars r
  | "&" :: "g" :: "t" :: ";" :: r => ">" :: unescape_chars r
  | "&" :: "q" :: "u" :: "o" :: "t" :: ";" :: r => dquote :: unescape_chars r
  | "&" :: "#" :: "0" :: "3" :: "9" :: ";" :: r => "'" :: unescape_chars r
  | c :: r => c :: unescape_chars r
  | [] => []
  end%char.

Definition possible : string :=
  "ABCDEFGHIJKLMNOPQRSTUVWXYZabcdefghijklmnopqrstuvwxyz0123456789".

(** [s.charAt(i)]: the character at [i], or [""] out of range. *)
Definition charAt (s : string) (i : Z) : string :=
  if (i <? 0)%Z then ""
  else match nth_error (list_ascii_of_string s) (Z.to_nat i) with
       | Some c => String c EmptyString
       | None => ""
       end.

(** [getNonce]: [draw i] is the value of
    [Math.floor(Math.random() * possible.length)] at iteration [i]. *)
Fixpoint nonce_loop (draw : nat -> Z) (n i : nat) (text : string) : string :=
  match n with
  | O => text
  | S n' => nonce_loop draw n' (S i) (text ++ charAt possible (draw i))%string
  end.

Definition getNonce (draw : nat -> Z) : string := nonce_loop draw 32 0 "".

Definition is_alnum (c : ascii) : bool := is_alpha c || is_digit c.

(** The five rewrites of [escapeHtml] seen one input character at a time. *)
Definition esc1 (c : ascii) : list ascii :=
  if achar_eqb c "&" then list_ascii_of_string "&amp;"
  else if achar_eqb c "<" then list_ascii_of_string "&lt;"
  else if achar_eqb c ">" then list_ascii_of_string "&gt;"
  else if achar_eqb c dquote then list_ascii_of_string "&quot;"
  else if achar_eqb c "'" then list_ascii_of_string "&#039;"
  else [c].

(* ------------------------------------------------------------------ *)
(** ** Registry consistency

    Every [previewByDoc] entry names a live panel of that document whose
    [onDidDispose] callback captured the same key and subscription; every
    live panel with a callback is the one registered under the callback's
    key. *)
Definition registry_ok (w : World) : Prop :=
  (forall k e, previewByDoc w !! k = Some e ->
     exists p h, panels w !! entry_panel e = Some p /\ panel_key p = k /\
       panel_disposed p = false /\ panel_on_dispose p = Some h /\
       h_key h = k /\ h_disposable h = entry_disposable e) /\
  (forall i p h, panels w !! i = Some p -> panel_disposed p = false ->
     panel_on_dispose p = Some h ->
     exists e, previewByDoc w !! h_key h = Some e /\ entry_panel e = i).

(** The same condition as an executable check. *)
Definition entry_ok (w : World) (k : string) (e : Entry) : bool :=
  match panels w !! entry_panel e with
  | Some p =>
      String.eqb (panel_key p) k && negb (panel_disposed p) &&
      match panel_on_dispose p with
      | Some h => String.eqb (h_key h) k && Nat.eqb (h_disposable h) (entry_disposable e)
      | None => false
      end
  | None => false
  end.

Definition panel_ok (w : World) (i : nat) (p : Panel) : bool :=
  if panel_disposed p then true else
  match panel_on_dispose p with
  | Some h => match previewByDoc w !! h_key h with
              | Some e => Nat.eqb (entry_panel e) i
              | None => false
              end
  | None => true
  end.

Fixpoint panels_ok (w : World) (i : nat) (ps : list Panel) : bool :=
  match ps with
  | [] => true
  | p :: r => panel_ok w i p && panels_ok w (S i) r
  end.

Definition registry_okb (w : World) : bool :=
  forallb (fun ke => entry_ok w ke.1 ke.2) (map_to_list (previewByDoc w)) &&
  panels_ok w 0 (panels w).

(** A change notification for the session's document. *)
Definition is_change_of (key : string) (e : Streamer.Event) : bool :=
  match e with
  | Streamer.Change _ u _ _ => String.eqb u key
  | Streamer.DisposePanel _ => false
  end.

(* ------------------------------------------------------------------ *)
(** ** Sample inputs *)

Definition sample_doc : Doc := mkDoc "file:///w/app.yaml" "/w/app.yaml" "yaml".
Definition sample_webview : Webview :=
  mkWebview "https://*.vscode-cdn.net"
    (fun p => ("https://file+.vscode-resource.vscode-cdn.net" ++ p)%string).

(** An environment: active editor, [remoteUrl], [debounceMs], [allowHttp],
    and the outcome of [listen(0)]. *)
Definition sample_env (remote : option string) (debounce : option Z)
    (allowHttp : option bool) (listen : option N) : Env :=
  mkEnv (Some sample_doc) remote debounce allowHttp listen "/ext" sample_webview.

Definition sample_fs (contents : option string) : FileSystem :=
  fun p => if String.eqb p (demo_fs_path "/ext") then contents else None.

(** Sample sessions: the document of [sample_env] opened with the demo
    server on port 54321. *)
Definition opened_world : World :=
  snd (open_cmd (sample_env None None None (Some 54321%N)) world0).

(* ================================================================== *)
(** * Properties *)

(** ** Evaluations of the models on sample inputs *)

Example url_ex1 : url_origin "https://ex.com/app" = "https://ex.com".
Proof. reflexivity. Qed.

Example url_ex2 : isHttpsUrl (Some "http://insecure.example") = false.
Proof. reflexivity. Qed.

Example url_ex3 : url_origin "http://127.0.0.1:54321/index.html" = "http://127.0.0.1:54321".
Proof. reflexivity. Qed.

Example url_ex4 : URL.parse "not a url" = None.
Proof. reflexivity. Qed.

Example url_ex5 : url_origin "HTTPS://Ex.COM:443/x" = "https://ex.com".
Proof. reflexivity. Qed.

Example url_ex6 : isHttpsUrl (Some "https://") = false.
Proof. reflexivity. Qed.

Example split_ex : js_split "?" "/index.html?x=1?y" = ["/index.html"; "x=1"; "y"]%string.
Proof. reflexivity. Qed.

Example handle_ex404 :
  statusCode (handle_request "p" (Some "/missing.png") (fun _ => Some "x")) = 404%Z.
Proof. reflexivity. Qed.

(** ** Helper lemmas on the world setters *)

Lemma previewByDoc_update_panel i f w : previewByDoc (update_panel i f w) = previewByDoc w.
Proof. unfold update_panel. destruct (panels w !! i); reflexivity. Qed.
Lemma servers_update_panel i f w : servers (update_panel i f w) = servers w.
Proof. unfold update_panel. destruct (panels w !! i); reflexivity. Qed.
Lemma subs_update_panel i f w : subs (update_panel i f w) = subs w.
Proof. unfold update_panel. destruct (panels w !! i); reflexivity. Qed.
Lemma length_panels_update_panel i f w :
  length (panels (update_panel i f w)) = length (panels w).
Proof.
  unfold update_panel. destruct (panels w !! i); simpl; [apply length_insert | reflexivity].
Qed.
Lemma panels_update_panel_other i j f w :
  i <> j -> panels (update_panel i f w) !! j = panels w !! j.
Proof.
  intros Hij. unfold update_panel. destruct (panels w !! i); simpl; [|reflexivity].
  apply list_lookup_insert_ne. exact Hij.
Qed.
Lemma panels_update_panel_same i f w p :
  panels w !! i = Some p -> panels (update_panel i f w) !! i = Some (f p).
Proof.
  intros Hp. unfold update_panel. rewrite Hp. simpl.
  apply list_lookup_insert_eq. apply lookup_lt_is_Some_1. rewrite Hp. eauto.
Qed.

(** [open_cmd] when the active document is a YAML document already in the
    registry. *)
Lemma open_cmd_existing (env : Env) (w : World) (d : Doc) (e : Entry) :
  activeEditor env = Some d -> isYaml d = true ->
  previewByDoc w !! doc_uri d = Some e ->
  open_cmd env w = (Ok tt, update_panel (entry_panel e) with_reveal w).
Proof.
  intros Ha Hy He. unfold open_cmd. rewrite Ha, Hy. simpl.
  unfold bindM, getsM. rewrite He. reflexivity.
Qed.

(** A completed [open_cmd] leaves the active document registered. *)
Lemma open_cmd_registers (env : Env) (w : World) (d : Doc) :
  activeEditor env = Some d -> isYaml d = true -> fst (open_cmd env w) = Ok tt ->
  exists e, previewByDoc (snd (open_cmd env w)) !! doc_uri d = Some e.
Proof.
  intros Ha Hy Hok.
  destruct (previewByDoc w !! doc_uri d) as [e|] eqn:He.
  - rewrite (open_cmd_existing env w d e Ha Hy He). simpl.
    rewrite previewByDoc_update_panel. eauto.
  - revert Hok. unfold open_cmd. rewrite Ha, Hy.
    cbv beta iota delta [negb bindM getsM]. rewrite He.
    destruct (isHttpsUrl (Some (cfg_get (cfg_remoteUrl env) ""))); simpl.
    + intros _. eexists. apply lookup_insert_eq.
    + unfold startDemoServer. destruct (listen_result env); simpl.
      * intros _. eexists. apply lookup_insert_eq.
      * discriminate.
Qed.

(** [URL.parse ""] fails, as [new URL("")] throws. *)
Lemma url_parse_empty : URL.parse "" = None.
Proof. reflexivity. Qed.

Lemma isHttpsUrl_spec (v : string) :
  isHttpsUrl (Some v) = true <->
  exists u, URL.parse v = Some u /\ URL.protocol u = "https:".
Proof.
  unfold isHttpsUrl. destruct (String.eqb_spec v "") as [->|Hne].
  - rewrite url_parse_empty. split; [discriminate | intros (u & Hu & _); discriminate].
  - destruct (URL.parse v) as [u|].
    + split.
      * intros H. exists u. split; [reflexivity | apply String.eqb_eq; exact H].
      * intros (u' & Hu & Hp). injection Hu as <-. apply String.eqb_eq. exact Hp.
    + split; [discriminate | intros (u & Hu & _); discriminate].
Qed.

(** [""]-prefix lemma for the path computation: the first field of
    [split("?")] is the text before the first [?]. *)
Lemma hd_split_chars (sep : ascii) (l : list ascii) :
  hd [] (split_chars sep l) = take_while (fun c => negb (achar_eqb c sep)) l.
Proof.
  induction l as [|c r IH]; simpl; [reflexivity|].
  destruct (achar_eqb c sep); simpl; [reflexivity|].
  destruct (split_chars sep r) as [|x xs]; simpl in *; rewrite <- IH; reflexivity.
Qed.

Lemma request_path_spec (u : string) :
  request_path (Some u) =
  if String.eqb u "" then "/"
  else string_of_list_ascii
         (take_while (fun c => negb (achar_eqb c "?")) (list_ascii_of_string u)).
Proof.
  unfold request_path. destruct (String.eqb u ""); [reflexivity|].
  unfold js_split. rewrite <- hd_split_chars.
  destruct (split_chars "?" (list_ascii_of_string u)); reflexivity.
Qed.

(* ------------------------------------------------------------------ *)
(** ** C4: the remote tier *)

(** C4: [resolveAppSrc] picks the [Remote] variant exactly when the
    configured value parses as a URL whose protocol is [https:]; then the
    iframe source is the value itself and the [postMessage] target origin
    is the parsed URL's origin, e.g. ["https://ex.com/app"] gives
    ["https://ex.com"]. *)
Theorem resolve_remote_iff_https (wv : Webview) (ext v : string)
    (demoUrl : option string) (allowHttp : bool) :
  ((exists r, resolveAppSrc_tagged wv ext v demoUrl allowHttp = Remote r) <->
   (exists u, URL.parse v = Some u /\ URL.protocol u = "https:"))
  /\ match resolveAppSrc_tagged wv ext v demoUrl allowHttp with
     | Remote r => src r = v /\
                   exists u, URL.parse v = Some u /\ targetOrigin r = URL.origin u
     | _ => True
     end
  /\ resolveAppSrc_tagged wv ext "https://ex.com/app" demoUrl allowHttp =
     Remote (mkAppSrc "https://ex.com/app" "https://ex.com" "https://ex.com").
Proof.
  split; [|split].
  - rewrite <- isHttpsUrl_spec. unfold resolveAppSrc_tagged.
    destruct (isHttpsUrl (Some v)).
    + split; [reflexivity | intros _; eexists; reflexivity].
    + split; [|discriminate].
      intros (r & Hr). destruct demoUrl as [d|];
        [destruct (allowHttp && negb (String.eqb d "")) |]; discriminate.
  - unfold resolveAppSrc_tagged.
    destruct (isHttpsUrl (Some v)) eqn:Hh.
    + split; [reflexivity|].
      apply isHttpsUrl_spec in Hh. destruct Hh as (u & Hu & _).
      exists u. split; [exact Hu|]. simpl. unfold url_origin. rewrite Hu. reflexivity.
    + destruct demoUrl as [d|]; [destruct (allowHttp && negb (String.eqb d "")) |]; exact I.
  - reflexivity.
Qed.

(* ------------------------------------------------------------------ *)
(** ** C7: registry idempotence *)

(** An open never removes or replaces a registry entry. *)
Lemma open_keeps_entry (env : Env) (w : World) (k : string) (e : Entry) :
  previewByDoc w !! k = Some e -> previewByDoc (snd (open_cmd env w)) !! k = Some e.
Proof.
  intros Hk. unfold open_cmd. destruct (activeEditor env) as [d|]; [|exact Hk].
  destruct (negb (isYaml d)); [exact Hk|].
  cbv beta iota delta [bindM getsM].
  destruct (previewByDoc w !! doc_uri d) as [e'|] eqn:He.
  - simpl. rewrite previewByDoc_update_panel. exact Hk.
  - assert (Hne : doc_uri d <> k) by congruence.
    destruct (isHttpsUrl (Some (cfg_get (cfg_remoteUrl env) "")));
      [| unfold startDemoServer; destruct (listen_result env)]; simpl; try exact Hk;
      rewrite lookup_insert_ne by exact Hne; rewrite !previewByDoc_update_panel; simpl;
      rewrite ?previewByDoc_update_panel; exact Hk.
Qed.

Lemma run_opens_keeps_entry (envs : list Env) (w : World) (k : string) (e : Entry) :
  previewByDoc w !! k = Some e -> previewByDoc (run_opens envs w) !! k = Some e.
Proof.
  revert w. induction envs as [|env r IH]; intros w Hk; simpl; [exact Hk|].
  apply IH. apply open_keeps_entry. exact Hk.
Qed.

(** C7: for a YAML document [d], any invocation of the open command while
    [d] has a registered session (whatever else was opened before and
    whatever the configuration) only reveals that session's panel: no
    panel, server or subscription is created and the registry is
    unchanged.  Hence after a completed open of [d], any later open of [d]
    (after any other opens in between, with any configuration) finds the
    same registered session and only reveals it, so [d] keeps exactly one
    registered session (the registry is a map, so it never holds two). *)
Theorem open_idempotent (d : Doc) (Hy : isYaml d = true) :
  (forall (env : Env) (w : World) (e : Entry),
     activeEditor env = Some d -> previewByDoc w !! doc_uri d = Some e ->
     open_cmd env w = (Ok tt, update_panel (entry_panel e) with_reveal w) /\
     previewByDoc (snd (open_cmd env w)) = previewByDoc w /\
     length (panels (snd (open_cmd env w))) = length (panels w) /\
     servers (snd (open_cmd env w)) = servers w /\
     subs (snd (open_cmd env w)) = subs w) /\
  (forall (env1 env2 : Env) (envs : list Env) (w : World),
     activeEditor env1 = Some d -> activeEditor env2 = Some d ->
     fst (open_cmd env1 w) = Ok tt ->
     let w1 := run_opens envs (snd (open_cmd env1 w)) in
     exists e,
       previewByDoc (snd (open_cmd env1 w)) !! doc_uri d = Some e /\
       previewByDoc w1 !! doc_uri d = Some e /\
       open_cmd env2 w1 = (Ok tt, update_panel (entry_panel e) with_reveal w1) /\
       previewByDoc (snd (open_cmd env2 w1)) = previewByDoc w1).
Proof.
  split.
  - intros env w e Ha He.
    rewrite (open_cmd_existing env w d e Ha Hy He). simpl.
    rewrite previewByDoc_update_panel, length_panels_update_panel,
      servers_update_panel, subs_update_panel.
    repeat split; reflexivity.
  - intros env1 env2 envs w Ha1 Ha2 Hok w1.
    destruct (open_cmd_registers env1 w d Ha1 Hy Hok) as (e & He).
    exists e. split; [exact He|].
    assert (He1 : previewByDoc w1 !! doc_uri d = Some e) by (apply run_opens_keeps_entry; exact He).
    split; [exact He1|].
    rewrite (open_cmd_existing env2 w1 d e Ha2 Hy He1). simpl.
    split; [reflexivity | apply previewByDoc_update_panel].
Qed.

Lemma open_idempotent_witness :
  isYaml sample_doc = true /\
  let env1 := sample_env None None None (Some 54321%N) in
  let env2 := sample_env (Some "https://ex.com/app") (Some 50%Z) (Some false) None in
  let envs := [mkEnv (Some (mkDoc "file:///w/b.yml" "/w/b.yml" "plaintext"))
                     None None None (Some 40000%N) "/ext" sample_webview] in
  activeEditor env1 = Some sample_doc /\ activeEditor env2 = Some sample_doc /\
  fst (open_cmd env1 world0) = Ok tt /\
  let w1 := run_opens envs (snd (open_cmd env1 world0)) in
  exists e,
    previewByDoc (snd (open_cmd env1 world0)) !! doc_uri sample_doc = Some e /\
    previewByDoc w1 !! doc_uri sample_doc = Some e /\
    open_cmd env2 w1 = (Ok tt, update_panel (entry_panel e) with_reveal w1) /\
    previewByDoc (snd (open_cmd env2 w1)) = previewByDoc w1.
Proof.
  split; [vm_compute; reflexivity|].
  split; [reflexivity|]. split; [reflexivity|]. split; [vm_compute; reflexivity|].
  apply (proj2 (open_idempotent sample_doc ltac:(vm_compute; reflexivity)));
    [reflexivity | reflexivity | vm_compute; reflexivity].
Defined.

(* ------------------------------------------------------------------ *)
(** ** C8, C10: the demo server's handler *)

(** C8: each request is answered from the file as it is when that request
    arrives (no caching): for the path ["/"] or ["/index.html"], status 200
    with the current file contents and a [text/html] content type, or 500
    when the read fails; for any other path, 404.  The handler only writes
    the response: it has no access to the panel, registry or subscription,
    so the session is untouched. *)
Theorem demo_server_responses (demoPath : string)
    (reqs : list (option string * FileSystem)) (i : nat)
    (u : option string) (fs : FileSystem)
    (Hi : nth_error reqs i = Some (u, fs)) :
  exists r, nth_error (serve demoPath reqs) i = Some r /\
    ((request_path u = "/" \/ request_path u = "/index.html") ->
       (forall html, fs demoPath = Some html -> r = mkResponse 200 html_headers html) /\
       (fs demoPath = None -> statusCode r = 500%Z)) /\
    (request_path u <> "/" -> request_path u <> "/index.html" -> statusCode r = 404%Z).
Proof.
  exists (handle_request demoPath u fs). split.
  - unfold serve. rewrite (map_nth_error _ _ _ Hi). reflexivity.
  - unfold handle_request. split.
    + intros Hp. assert (Hsel : negb (String.eqb (request_path u) "/") &&
                                negb (String.eqb (request_path u) "/index.html") = false).
      { destruct Hp as [-> | ->]; reflexivity. }
      rewrite Hsel. split.
      * intros html ->. reflexivity.
      * intros ->. reflexivity.
    + intros H1 H2. apply String.eqb_neq in H1, H2. rewrite H1, H2. reflexivity.
Qed.

Lemma demo_server_responses_witness :
  exists r,
    nth_error (serve (demo_fs_path "/ext")
                 [(Some "/", sample_fs (Some "v1")); (Some "/", sample_fs (Some "v2"))]) 1
      = Some r /\
    ((request_path (Some "/") = "/" \/ request_path (Some "/") = "/index.html") ->
       (forall html, sample_fs (Some "v2") (demo_fs_path "/ext") = Some html ->
                r = mkResponse 200 html_headers html) /\
       (sample_fs (Some "v2") (demo_fs_path "/ext") = None -> statusCode r = 500%Z)) /\
    (request_path (Some "/") <> "/" -> request_path (Some "/") <> "/index.html" ->
       statusCode r = 404%Z).
Proof.
  apply (demo_server_responses (demo_fs_path "/ext")
           [(Some "/", sample_fs (Some "v1")); (Some "/", sample_fs (Some "v2"))] 1
           (Some "/") (sample_fs (Some "v2"))).
  reflexivity.
Defined.

(** C10: the path the handler matches is the text before the first [?]; an
    absent (or empty) [req.url] counts as ["/"]; so ["/index.html?x=1"] and
    ["/?q"] are served like ["/index.html"] and ["/"]: 200 with the file. *)
Theorem request_path_query_ignored (fs : FileSystem) (p html : string)
    (Hread : fs p = Some html) :
  (forall u, request_path (Some u) =
     if String.eqb u "" then "/"
     else string_of_list_ascii
            (take_while (fun c => negb (achar_eqb c "?")) (list_ascii_of_string u))) /\
  request_path None = "/" /\
  handle_request p None fs = mkResponse 200 html_headers html /\
  handle_request p (Some "/index.html?x=1") fs = mkResponse 200 html_headers html /\
  handle_request p (Some "/?q") fs = mkResponse 200 html_headers html.
Proof.
  split; [exact request_path_spec|]. split; [reflexivity|].
  unfold handle_request. rewrite Hread.
  split; [reflexivity|]. split; reflexivity.
Qed.

Lemma request_path_query_ignored_witness :
  (forall u, request_path (Some u) =
     if String.eqb u "" then "/"
     else string_of_list_ascii
            (take_while (fun c => negb (achar_eqb c "?")) (list_ascii_of_string u))) /\
  request_path None = "/" /\
  handle_request (demo_fs_path "/ext") None (sample_fs (Some "<html/>")) =
    mkResponse 200 html_headers "<html/>" /\
  handle_request (demo_fs_path "/ext") (Some "/index.html?x=1") (sample_fs (Some "<html/>")) =
    mkResponse 200 html_headers "<html/>" /\
  handle_request (demo_fs_path "/ext") (Some "/?q") (sample_fs (Some "<html/>")) =
    mkResponse 200 html_headers "<html/>".
Proof.
  apply (request_path_query_ignored (sample_fs (Some "<html/>")) (demo_fs_path "/ext")).
  reflexivity.
Defined.

(* ------------------------------------------------------------------ *)
(** ** C9: the debounce delay *)

(** The subscriptions [open_cmd] adds. *)
Lemma open_cmd_subs (env : Env) (w : World) :
  exists added, subs (snd (open_cmd env w)) = subs w ++ added /\
    Forall (fun s => sub_delay s = effective_debounceMs (cfg_debounceMs env)) added.
Proof.
  unfold open_cmd. destruct (activeEditor env) as [d|].
  - destruct (negb (isYaml d)).
    + exists []. rewrite app_nil_r. split; [reflexivity | constructor].
    + cbv beta iota delta [bindM getsM].
      destruct (previewByDoc w !! doc_uri d) as [e|].
      * exists []. rewrite app_nil_r. simpl. rewrite subs_update_panel.
        split; [reflexivity | constructor].
      * destruct (isHttpsUrl (Some (cfg_get (cfg_remoteUrl env) ""))); simpl.
        -- eexists. rewrite !subs_update_panel. simpl. rewrite ?subs_update_panel.
           split; [reflexivity | repeat constructor].
        -- unfold startDemoServer. destruct (listen_result env); simpl.
           ++ eexists. rewrite !subs_update_panel. simpl. rewrite ?subs_update_panel.
              split; [reflexivity | repeat constructor].
           ++ exists []. rewrite app_nil_r. split; [reflexivity | constructor].
  - exists []. rewrite app_nil_r. split; [reflexivity | constructor].
Qed.

(** C9: the delay a session's [sendUpdate] is built with is
    [Math.max(0, v)] for a configured number [v] and 300 when the setting
    is unset; a negative setting gives 0. *)
Theorem debounce_delay_config (env : Env) (w : World) :
  effective_debounceMs None = 300%Z /\
  (forall v, effective_debounceMs (Some v) = Z.max 0 v) /\
  (forall v, (v < 0)%Z -> effective_debounceMs (Some v) = 0%Z) /\
  exists added, subs (snd (open_cmd env w)) = subs w ++ added /\
    Forall (fun s => sub_delay s = Z.max 0 (cfg_get (cfg_debounceMs env) 300%Z)) added.
Proof.
  split; [reflexivity|]. split; [reflexivity|].
  split; [intros v Hv; unfold effective_debounceMs; simpl; lia|].
  exact (open_cmd_subs env w).
Qed.

(* ------------------------------------------------------------------ *)
(** ** C1: [allowHttp = false] *)

(** C1 (counterexample): with [allowHttp = false] and no https remote, a
    completed open still started (and keeps listening) a demo server,
    although the iframe loads the bundled page. *)
Lemma allowhttp_false_server_started :
  let w := snd (open_cmd (sample_env None None (Some false) (Some 54321%N)) world0) in
  servers w <> [] /\
  servers w = [mkServer true (Some 54321%N)] /\
  option_map panel_html (panels w !! 0) =
    Some (Some (bundled_appsrc sample_webview "/ext")).
Proof.
  vm_compute. split; [discriminate | split; reflexivity].
Qed.

Lemma resolve_no_https_no_allowhttp (wv : Webview) (ext remote : string)
    (demoUrl : option string) :
  isHttpsUrl (Some remote) = false ->
  resolveAppSrc_tagged wv ext remote demoUrl false = LocalBundled (bundled_appsrc wv ext).
Proof.
  intros Hh. unfold resolveAppSrc_tagged. rewrite Hh.
  destruct demoUrl; reflexivity.
Qed.

(** C1 (amended): with [allowHttp = false] and a remote value that is
    absent, empty, malformed or not https, [resolveAppSrc] yields
    [LocalBundled] whatever [demoUrl] is, and a completed open sets the
    panel to the bundled page; but the open flow calls [startDemoServer]
    (one more server) whenever the remote is not https, whatever
    [allowHttp] says. *)
Theorem allowhttp_false_resolves_bundled (env : Env) (w : World) (d : Doc)
    (Ha : activeEditor env = Some d) (Hy : isYaml d = true)
    (Hfresh : previewByDoc w !! doc_uri d = None)
    (Hallow : cfg_allowHttp env = Some false)
    (Hins : isHttpsUrl (Some (cfg_get (cfg_remoteUrl env) "")) = false) :
  (forall demoUrl,
     resolveAppSrc_tagged (new_webview env) (extensionUri env)
       (cfg_get (cfg_remoteUrl env) "") demoUrl false =
     LocalBundled (bundled_appsrc (new_webview env) (extensionUri env))) /\
  length (servers (snd (open_cmd env w))) = S (length (servers w)) /\
  match fst (open_cmd env w) with
  | Ok _ => option_map panel_html (panels (snd (open_cmd env w)) !! length (panels w)) =
            Some (Some (bundled_appsrc (new_webview env) (extensionUri env)))
  | Throw _ => True
  end.
Proof.
  split; [intros; apply resolve_no_https_no_allowhttp; exact Hins|].
  unfold open_cmd. rewrite Ha, Hy.
  cbv beta iota delta [negb bindM getsM]. rewrite Hfresh, Hins.
  unfold startDemoServer. rewrite Hallow.
  destruct (listen_result env) as [port|]; simpl.
  - rewrite !servers_update_panel. simpl. rewrite servers_update_panel. simpl.
    rewrite length_app. simpl. split; [lia|].
    set (a := resolveAppSrc (new_webview env) (extensionUri env)
                (cfg_get (cfg_remoteUrl env) "") (Some (loopback_url port)) false).
    assert (Hl : panels (set_servers (servers w ++ [mkServer true (Some port)])
                   (set_panels (panels w ++ [mkPanel (doc_uri d) None false 0 None]) w))
                 !! length (panels w) = Some (mkPanel (doc_uri d) None false 0 None)).
    { simpl. apply list_lookup_middle. reflexivity. }
    pose proof (panels_update_panel_same _ (with_html a) _ _ Hl) as H1.
    match goal with
    | |- context [update_panel ?i (with_handler ?h) (set_subs ?ss ?w0)] =>
        assert (H2 : panels (update_panel i (with_handler h) (set_subs ss w0)) !! i =
                     Some (with_handler h (with_html a (mkPanel (doc_uri d) None false 0 None))))
    end.
    { apply panels_update_panel_same. simpl. exact H1. }
    simpl in H2 |- *. rewrite H2. simpl. f_equal. f_equal.
    unfold a, resolveAppSrc. rewrite resolve_no_https_no_allowhttp; [reflexivity | exact Hins].
  - rewrite length_app. simpl. split; [lia | exact I].
Qed.

Lemma allowhttp_false_resolves_bundled_witness :
  (forall demoUrl,
     resolveAppSrc_tagged sample_webview "/ext" "http://insecure.example" demoUrl false =
     LocalBundled (bundled_appsrc sample_webview "/ext")) /\
  length (servers (snd (open_cmd (sample_env (Some "http://insecure.example") None
                                    (Some false) (Some 54321%N)) world0))) = 1%nat /\
  match fst (open_cmd (sample_env (Some "http://insecure.example") None
                         (Some false) (Some 54321%N)) world0) with
  | Ok _ => option_map panel_html
              (panels (snd (open_cmd (sample_env (Some "http://insecure.example") None
                                        (Some false) (Some 54321%N)) world0)) !! 0%nat) =
            Some (Some (bundled_appsrc sample_webview "/ext"))
  | Throw _ => True
  end.
Proof.
  apply (allowhttp_false_resolves_bundled
           (sample_env (Some "http://insecure.example") None (Some false) (Some 54321%N))
           world0 sample_doc);
    [reflexivity | vm_compute; reflexivity | reflexivity | reflexivity | reflexivity].
Defined.

(* ------------------------------------------------------------------ *)
(** ** C3: degradation *)

(** C3: a malformed remote value is only a [false] from [isHttpsUrl]; but
    a listen failure of the demo server rejects [startDemoServer], which
    the command does not catch: the command fails, the panel is left
    without content and nothing is registered. *)
Theorem bind_failure_aborts_open :
  isHttpsUrl (Some "::not a url::") = false /\
  let r := open_cmd (sample_env (Some "::not a url::") None None None) world0 in
  fst r = Throw "listen error" /\
  previewByDoc (snd r) = ∅ /\
  option_map panel_html (panels (snd r) !! 0) = Some None /\
  subs (snd r) = [].
Proof.
  split; [reflexivity|]. vm_compute. repeat split; reflexivity.
Qed.

(* ------------------------------------------------------------------ *)
(** ** The streamer *)

Module StreamerFacts.
Import Streamer.

Lemma advance_listening t st : listening (advance t st) = listening st.
Proof. unfold advance. destruct (pending st) as [due|]; [destruct (due <=? t)%Z|]; reflexivity. Qed.
Lemma advance_disposed t st : disposed (advance t st) = disposed st.
Proof. unfold advance. destruct (pending st) as [due|]; [destruct (due <=? t)%Z|]; reflexivity. Qed.

Lemma advance_owed t st : owed (advance t st) = owed st.
Proof.
  unfold owed, advance. destruct (pending st) as [due|] eqn:Hp; [|rewrite Hp; reflexivity].
  destruct (due <=? t)%Z; simpl; [|rewrite Hp; reflexivity].
  rewrite length_app. simpl. lia.
Qed.

(** Once the subscription is gone, no step arms a timer. *)
Lemma step_unsubscribed key d st e :
  listening st = false ->
  listening (step key d st e) = false /\ owed (step key d st e) = owed st.
Proof.
  intros Hl. unfold step. destruct e as [t u v x | t]; simpl.
  - destruct (String.eqb u key).
    + unfold set_doc. simpl. rewrite advance_listening, Hl. simpl.
      rewrite <- (advance_owed t st). split; reflexivity.
    + rewrite advance_listening. split; [exact Hl | apply advance_owed].
  - split; [reflexivity|]. rewrite <- (advance_owed t st). reflexivity.
Qed.

Lemma run_unsubscribed key d es st :
  listening st = false -> owed (run key d es st) = owed st.
Proof.
  unfold run. revert st. induction es as [|e es IH]; intros st Hl; simpl; [reflexivity|].
  destruct (step_unsubscribed key d st e Hl) as [Hl' Ho].
  rewrite IH by exact Hl'. exact Ho.
Qed.

Lemma flush_owed st : length (posted (flush st)) = owed st.
Proof.
  unfold flush, owed. destruct (pending st); simpl; [rewrite length_app; simpl|]; lia.
Qed.

(** [setTimeout]'s effective delay is at least the requested one (when
    that is at most [TIMEOUT_MAX]) and at most one more. *)
Lemma node_timeout_bounds d :
  (0 <= d <= TIMEOUT_MAX)%Z -> (d <= node_timeout d <= d + 1)%Z /\ (1 <= node_timeout d)%Z.
Proof.
  intros Hd. unfold node_timeout.
  destruct (1 <=? d)%Z eqn:H1; destruct (d <=? TIMEOUT_MAX)%Z eqn:H2; simpl;
    rewrite ?Z.leb_le, ?Z.leb_gt in *; lia.
Qed.

(** A chain of close notifications keeps re-arming the one timer. *)
Lemma run_close_chain key d ws t st :
  (0 <= d <= TIMEOUT_MAX)%Z ->
  pending st = Some (t + node_timeout d)%Z -> listening st = true ->
  close_after d t ws ->
  run key d (changes key ws) st =
  let '(tn, vn, xn) := last_change (t, doc_version st, doc_text st) ws in
  mkT (Some (tn + node_timeout d)%Z) vn xn (listening st) (disposed st) (posted st).
Proof.
  intros Hd. revert t st. induction ws as [|[[t' v'] x'] r IH]; intros t st Hp Hl Hc.
  - simpl. destruct st; simpl in *; subst; reflexivity.
  - destruct Hc as [Hgap Hc].
    assert (Hadv : advance t' st = st).
    { unfold advance. rewrite Hp.
      destruct (node_timeout_bounds d Hd) as [[Hlo _] _].
      replace ((t + node_timeout d <=? t')%Z) with false by (symmetry; apply Z.leb_gt; lia).
      reflexivity. }
    assert (Hs : step key d st (Change t' key v' x') = sendUpdate d t' (set_doc v' x' st)).
    { unfold step. simpl. rewrite Hadv, String.eqb_refl. unfold set_doc. simpl.
      rewrite Hl. reflexivity. }
    change (run key d (changes key r) (step key d st (Change t' key v' x')) =
            let '(tn, vn, xn) := last_change (t', v', x') r in
            mkT (Some (tn + node_timeout d)%Z) vn xn (listening st) (disposed st) (posted st)).
    rewrite Hs, (IH t'); [| reflexivity | exact Hl | exact Hc].
    reflexivity.
Qed.

Lemma step_change_live key d st t v x :
  listening st = true ->
  step key d st (Change t key v x) = sendUpdate d t (set_doc v x (advance t st)).
Proof.
  intros Hl. unfold step. simpl. rewrite String.eqb_refl. unfold set_doc. simpl.
  rewrite advance_listening, Hl. reflexivity.
Qed.

(** After disposal the timer that was pending is still there: each step
    keeps it pending until it fires, and when it fires the post is made on
    the disposed panel. *)
Lemma advance_keeps_late_post due t st :
  disposed st = true ->
  (pending st = Some due \/
   exists p, In p (posted st) /\ post_time p = due /\ post_after_dispose p = true) ->
  (pending (advance t st) = Some due \/
   exists p, In p (posted (advance t st)) /\ post_time p = due /\ post_after_dispose p = true).
Proof.
  intros Hd H. unfold advance. destruct (pending st) as [due'|] eqn:Hp; [|rewrite Hp; exact H].
  destruct (due' <=? t)%Z; [|rewrite Hp; exact H].
  right. unfold fire. simpl. destruct H as [H | (p & Hin & Ht & Hf)].
  - injection H as ->. exists (mkPost due (doc_version st) (doc_text st) (disposed st)).
    split; [apply in_or_app; right; left; reflexivity|]. split; [reflexivity | exact Hd].
  - exists p. split; [apply in_or_app; left; exact Hin | split; assumption].
Qed.

Lemma step_keeps_late_post key d due st e :
  disposed st = true -> listening st = false ->
  (pending st = Some due \/
   exists p, In p (posted st) /\ post_time p = due /\ post_after_dispose p = true) ->
  disposed (step key d st e) = true /\ listening (step key d st e) = false /\
  (pending (step key d st e) = Some due \/
   exists p, In p (posted (step key d st e)) /\ post_time p = due /\ post_after_dispose p = true).
Proof.
  intros Hd Hl H.
  pose proof (advance_keeps_late_post due (event_time e) st Hd H) as Ha.
  unfold step. destruct e as [t u v x | t]; simpl in Ha |- *.
  - destruct (String.eqb u key).
    + unfold set_doc. simpl. rewrite advance_listening, Hl. simpl.
      rewrite advance_disposed. split; [exact Hd|]. split; [reflexivity | exact Ha].
    + rewrite advance_disposed, advance_listening. split; [exact Hd|].
      split; [exact Hl | exact Ha].
  - split; [reflexivity|]. split; [reflexivity | exact Ha].
Qed.

Lemma run_keeps_late_post key d due es st :
  disposed st = true -> listening st = false ->
  (pending st = Some due \/
   exists p, In p (posted st) /\ post_time p = due /\ post_after_dispose p = true) ->
  (pending (run key d es st) = Some due \/
   exists p, In p (posted (run key d es st)) /\ post_time p = due /\ post_after_dispose p = true) /\
  disposed (run key d es st) = true.
Proof.
  unfold run. revert st. induction es as [|e es IH]; intros st Hd Hl H; simpl.
  - split; [exact H | exact Hd].
  - destruct (step_keeps_late_post key d due st e Hd Hl H) as (Hd' & Hl' & H').
    apply IH; assumption.
Qed.

(** C2 (code bug): the [onDidDispose] callback disposes the subscription
    but leaves the debounce timer alone.  A timer pending at disposal, due
    after it, still fires whatever notifications follow, and its callback
    calls [postMessage] on the disposed panel: the final list of posts
    holds a post at that due time made after disposal. *)
Theorem late_post_after_dispose (key : string) (d : Z) (st : TState)
    (t due : Z) (es : list Event)
    (Hp : pending st = Some due) (Ht : (t < due)%Z) :
  exists p, In p (posted (flush (run key d es (step key d st (DisposePanel t))))) /\
    post_time p = due /\ post_after_dispose p = true.
Proof.
  assert (Hs : pending (step key d st (DisposePanel t)) = Some due).
  { unfold step, advance. simpl. rewrite Hp.
    replace (due <=? t)%Z with false by (symmetry; apply Z.leb_gt; lia). simpl. exact Hp. }
  destruct (run_keeps_late_post key d due es (step key d st (DisposePanel t)))
    as [H Hd]; [reflexivity | reflexivity | left; exact Hs |].
  unfold flush. destruct (pending (run key d es (step key d st (DisposePanel t)))) as [due'|] eqn:Hq.
  - unfold fire. simpl. destruct H as [H | (p & Hin & Hpt & Hf)].
    + injection H as ->. eexists. split; [apply in_or_app; right; left; reflexivity|].
      split; [reflexivity | exact Hd].
    + exists p. split; [apply in_or_app; left; exact Hin | split; assumption].
  - destruct H as [H | H]; [discriminate | exact H].
Qed.

Lemma late_post_after_dispose_witness :
  pending (session_start 300 0 1 "a: 1") = Some 300%Z /\ (10 < 300)%Z /\
  exists p, In p (posted (flush (run "file:///w/app.yaml" 300
                                   [Change 20 "file:///w/app.yaml" 2 "a: 2"]
                                   (step "file:///w/app.yaml" 300 (session_start 300 0 1 "a: 1")
                                      (DisposePanel 10))))) /\
    post_time p = 300%Z /\ post_after_dispose p = true.
Proof.
  split; [reflexivity|]. split; [lia|].
  apply (late_post_after_dispose "file:///w/app.yaml" 300 (session_start 300 0 1 "a: 1") 10 300);
    [reflexivity | lia].
Defined.


(** C6 (counterexample): with [debounceMs] above [TIMEOUT_MAX], Node's
    [setTimeout] waits 1 ms, so two notifications 10 ms apart (well within
    [debounceMs]) give two posts. *)
Lemma huge_debounce_no_coalescing :
  close_after 2147483648 100 [(110, 3, "c")]%Z /\
  listening (flush (session_start 2147483648 0 1 "a")) = true /\
  length (posted (flush (run "file:///w/app.yaml" 2147483648
                           (changes "file:///w/app.yaml" [(100, 2, "b"); (110, 3, "c")]%Z)
                           (flush (session_start 2147483648 0 1 "a"))))) =
  (length (posted (flush (session_start 2147483648 0 1 "a"))) + 2)%nat.
Proof.
  split; [simpl; lia|]. vm_compute. split; reflexivity.
Qed.

(** C6 (amended): for a live session and a [debounceMs] of at most
    [TIMEOUT_MAX] (2147483647): a burst of notifications, each less than
    [debounceMs] after the previous one, gives exactly one post, carrying
    the version and text of the last notification (besides a post already
    due when the burst starts); two notifications more than [debounceMs]
    apart give exactly two posts, each with its own version and text. *)
Theorem burst_coalesced (key : string) (d : Z) (st : TState)
    (t1 v1 : Z) (x1 : string) (ws : list (Z * Z * string))
    (u1 a1 : Z) (y1 : string) (u2 a2 : Z) (y2 : string)
    (Hd : (0 <= d <= TIMEOUT_MAX)%Z) (Hl : listening st = true)
    (Hc : close_after d t1 ws) (Hsp : (u1 + d < u2)%Z) :
  (let '(tn, vn, xn) := last_change (t1, v1, x1) ws in
   posted (flush (run key d (changes key ((t1, v1, x1) :: ws)) st)) =
   posted (advance t1 st) ++ [mkPost (tn + node_timeout d) vn xn (disposed st)]) /\
  posted (flush (run key d (changes key [(u1, a1, y1); (u2, a2, y2)]) st)) =
  posted (advance u1 st) ++
    [mkPost (u1 + node_timeout d) a1 y1 (disposed st);
     mkPost (u2 + node_timeout d) a2 y2 (disposed st)].
Proof.
  split.
  - change (run key d (changes key ((t1, v1, x1) :: ws)) st)
      with (run key d (changes key ws) (step key d st (Change t1 key v1 x1))).
    rewrite step_change_live by exact Hl.
    rewrite (run_close_chain key d ws t1); [| exact Hd | reflexivity | | exact Hc].
    + simpl. destruct (last_change (t1, v1, x1) ws) as [[tn vn] xn].
      unfold flush. simpl. rewrite advance_disposed. reflexivity.
    + simpl. rewrite advance_listening. exact Hl.
  - change (run key d (changes key [(u1, a1, y1); (u2, a2, y2)]) st)
      with (step key d (step key d st (Change u1 key a1 y1)) (Change u2 key a2 y2)).
    rewrite (step_change_live key d st u1 a1 y1 Hl).
    rewrite step_change_live by (simpl; rewrite advance_listening; exact Hl).
    destruct (node_timeout_bounds d Hd) as [[_ Hhi] _].
    assert (Hdue : (u1 + node_timeout d <=? u2)%Z = true) by (apply Z.leb_le; lia).
    unfold advance at 1. simpl. rewrite Hdue.
    unfold flush, fire. simpl. rewrite advance_disposed, <- app_assoc. reflexivity.
Qed.

Lemma burst_coalesced_witness :
  let st := flush (session_start 300 0 1 "a") in
  (0 <= 300 <= TIMEOUT_MAX)%Z /\ listening st = true /\
  close_after 300 1000 [(1100, 3, "c"); (1350, 4, "d")]%Z /\ (2000 + 300 < 2400)%Z /\
  (let '(tn, vn, xn) := last_change (1000, 2, "b")%Z [(1100, 3, "c"); (1350, 4, "d")]%Z in
   posted (flush (run "k" 300 (changes "k" ((1000, 2, "b")%Z :: [(1100, 3, "c"); (1350, 4, "d")]%Z)) st)) =
   posted (advance 1000 st) ++ [mkPost (tn + node_timeout 300) vn xn (disposed st)]) /\
  posted (flush (run "k" 300 (changes "k" [(2000, 5, "e"); (2400, 6, "f")]%Z) st)) =
  posted (advance 2000 st) ++
    [mkPost (2000 + node_timeout 300) 5 "e" (disposed st);
     mkPost (2400 + node_timeout 300) 6 "f" (disposed st)].
Proof.
  intros st.
  assert (Hd : (0 <= 300 <= TIMEOUT_MAX)%Z) by (unfold TIMEOUT_MAX; lia).
  assert (Hl : listening st = true) by reflexivity.
  assert (Hc : close_after 300 1000 [(1100, 3, "c"); (1350, 4, "d")]%Z) by (simpl; lia).
  assert (Hsp : (2000 + 300 < 2400)%Z) by lia.
  split; [exact Hd|]. split; [exact Hl|]. split; [exact Hc|]. split; [exact Hsp|].
  exact (burst_coalesced "k" 300 st 1000 2 "b" [(1100, 3, "c"); (1350, 4, "d")]%Z
           2000 5 "e" 2400 6 "f" Hd Hl Hc Hsp).
Defined.

End StreamerFacts.

(* ------------------------------------------------------------------ *)
(** ** C5: the embedding policy *)

Lemma list_ascii_of_string_app (s1 s2 : string) :
  list_ascii_of_string (s1 ++ s2) = list_ascii_of_string s1 ++ list_ascii_of_string s2.
Proof. induction s1 as [|c s1 IH]; simpl; [reflexivity | rewrite IH; reflexivity]. Qed.

Lemma string_of_list_ascii_app (l1 l2 : list ascii) :
  string_of_list_ascii (l1 ++ l2) = (string_of_list_ascii l1 ++ string_of_list_ascii l2)%string.
Proof. induction l1 as [|c l1 IH]; simpl; [reflexivity | rewrite IH; reflexivity]. Qed.

Lemma uint_chars_digits (u : Decimal.uint) : forallb is_digit (uint_chars u) = true.
Proof. induction u; simpl; rewrite ?IHu; reflexivity. Qed.

Lemma chars_uint_uint_chars (u : Decimal.uint) : chars_uint (uint_chars u) = Some u.
Proof. induction u; simpl; rewrite ?IHu; reflexivity. Qed.

Lemma N_chars_nonempty (p : N) : p <> 0%N -> N_chars p <> [].
Proof.
  intros Hp He. apply Hp.
  pose proof (chars_uint_uint_chars (N.to_uint p)) as H.
  unfold N_chars in He. rewrite He in H. simpl in H. injection H as H.
  rewrite <- (DecimalN.Unsigned.of_to p), <- H. reflexivity.
Qed.

Lemma digit_char_props (c : ascii) :
  is_digit c = true ->
  URL.c0_or_space c = false /\ URL.authority_end c = false /\
  achar_eqb c "@" = false /\ achar_eqb c ":" = false.
Proof.
  destruct c as [[] [] [] [] [] [] [] []]; vm_compute;
    first [intros; repeat split; reflexivity | discriminate].
Qed.

Lemma c0_tab (c : ascii) : URL.c0_or_space c = false -> URL.tab_or_newline c = false.
Proof.
  destruct c as [[] [] [] [] [] [] [] []]; vm_compute;
    first [intros; reflexivity | discriminate].
Qed.

Lemma forallb_impl (p q : ascii -> bool) (l : list ascii) :
  (forall c, p c = true -> q c = true) -> forallb p l = true -> forallb q l = true.
Proof.
  intros Hpq. induction l as [|c l IH]; simpl; [reflexivity|].
  intros H. apply andb_true_iff in H as [H1 H2]. rewrite (Hpq c H1), (IH H2). reflexivity.
Qed.

Lemma take_while_app_all (p : ascii -> bool) (l r : list ascii) :
  forallb p l = true -> take_while p (l ++ r) = l ++ take_while p r.
Proof.
  induction l as [|c l IH]; simpl; [reflexivity|].
  intros H. apply andb_true_iff in H as [H1 H2]. rewrite H1, (IH H2). reflexivity.
Qed.

Lemma take_while_all (p : ascii -> bool) (l : list ascii) :
  forallb p l = true -> take_while p l = l.
Proof.
  intros H. rewrite <- (app_nil_r l) at 1. rewrite take_while_app_all by exact H.
  apply app_nil_r.
Qed.

Lemma filter_all (p : ascii -> bool) (l : list ascii) :
  forallb p l = true -> List.filter p l = l.
Proof.
  induction l as [|c l IH]; simpl; [reflexivity|].
  intros H. apply andb_true_iff in H as [H1 H2]. rewrite H1, (IH H2). reflexivity.
Qed.

Lemma drop_while_none (p : ascii -> bool) (l : list ascii) :
  forallb (fun c => negb (p c)) l = true -> drop_while p l = l.
Proof.
  destruct l as [|c l]; simpl; [reflexivity|].
  intros H. apply andb_true_iff in H as [H1 _]. destruct (p c); [discriminate | reflexivity].
Qed.

Lemma forallb_rev (p : ascii -> bool) (l : list ascii) :
  forallb p (rev l) = forallb p l.
Proof.
  induction l as [|c l IH]; simpl; [reflexivity|].
  rewrite forallb_app, IH. simpl. rewrite andb_true_r, andb_comm. reflexivity.
Qed.

Lemma preprocess_id (l : list ascii) :
  forallb (fun c => negb (URL.c0_or_space c)) l = true -> URL.preprocess l = l.
Proof.
  intros H. unfold URL.preprocess.
  rewrite (drop_while_none URL.c0_or_space l H).
  rewrite (drop_while_none URL.c0_or_space (rev l)) by (rewrite forallb_rev; exact H).
  rewrite rev_involutive. apply filter_all.
  apply (forallb_impl (fun c => negb (URL.c0_or_space c)) _ l); [|exact H].
  intros c Hc. apply negb_true_iff in Hc. rewrite (c0_tab c Hc). reflexivity.
Qed.

Lemma after_last_all (c : ascii) (l : list ascii) :
  forallb (fun d => negb (achar_eqb d c)) l = true -> after_last c l = l.
Proof.
  intros H. unfold after_last. rewrite take_while_all; [apply rev_involutive|].
  rewrite forallb_rev. exact H.
Qed.

Lemma parse_authority_loopback (D : list ascii) (u : Decimal.uint) :
  forallb is_digit D = true -> D <> [] -> chars_uint D = Some u ->
  (N.of_uint u <= 65535)%N -> N.of_uint u <> 80%N ->
  URL.parse_authority 80
    (list_ascii_of_string "//127.0.0.1:" ++ D ++ list_ascii_of_string "/index.html") =
  Some (list_ascii_of_string "127.0.0.1", N_chars (N.of_uint u)).
Proof.
  intros Hdig Hne Hval Hmax H80.
  unfold URL.parse_authority. simpl.
  rewrite take_while_app_all.
  2:{ apply (forallb_impl is_digit); [|exact Hdig].
      intros c Hc. destruct (digit_char_props c Hc) as (_ & -> & _). reflexivity. }
  rewrite app_nil_r.
  rewrite after_last_all.
  2:{ simpl. apply (forallb_impl is_digit); [|exact Hdig].
      intros c Hc. destruct (digit_char_props c Hc) as (_ & _ & -> & _). reflexivity. }
  simpl.
  destruct D as [|c D']; [contradiction|].
  unfold URL.parse_port. rewrite Hval.
  replace (65535 <? N.of_uint u)%N with false by (symmetry; apply N.ltb_ge; exact Hmax).
  replace (N.of_uint u =? 80)%N with false by (symmetry; apply N.eqb_neq; exact H80).
  reflexivity.
Qed.

Lemma loopback_origin (p : N) :
  (1 <= p <= 65535)%N -> p <> 80%N ->
  url_origin (loopback_url p) = ("http://127.0.0.1:" ++ N_to_string p)%string.
Proof.
  intros Hp H80.
  assert (Hne : N_chars p <> []) by (apply N_chars_nonempty; lia).
  pose proof (uint_chars_digits (N.to_uint p)) as Hdig. fold (N_chars p) in Hdig.
  pose proof (chars_uint_uint_chars (N.to_uint p)) as Hval. fold (N_chars p) in Hval.
  unfold url_origin, loopback_url, N_to_string, URL.parse.
  rewrite !list_ascii_of_string_app, list_ascii_of_string_of_list_ascii.
  set (D := N_chars p) in *.
  rewrite preprocess_id.
  2:{ rewrite !forallb_app. rewrite (forallb_impl is_digit _ D); [reflexivity| |exact Hdig].
      intros c Hc. destruct (digit_char_props c Hc) as [-> _]. reflexivity. }
  simpl.
  pose proof (parse_authority_loopback D (N.to_uint p) Hdig Hne Hval) as HA.
  rewrite DecimalN.Unsigned.of_to in HA. simpl in HA. rewrite HA by lia.
  fold D. destruct D as [|c D']; [contradiction|]. reflexivity.
Qed.

Lemma length_string_of_list_ascii (l : list ascii) :
  String.length (string_of_list_ascii l) = length l.
Proof. induction l as [|c l IH]; simpl; [reflexivity | rewrite IH; reflexivity]. Qed.

(** No origin the URL model produces is the wildcard. *)
Lemma url_origin_not_wildcard (s : string) : url_origin s <> "*".
Proof.
  unfold url_origin, URL.parse.
  destruct (URL.preprocess (list_ascii_of_string s)) as [|c l]; [discriminate|].
  destruct (negb (is_alpha c)); [discriminate|].
  destruct (URL.scan_scheme (c :: l)) as [[s0 rest]|]; [|discriminate].
  destruct (URL.default_port (lower s0)) as [[dflt|]|];
    [destruct (URL.parse_authority dflt rest) as [[h q]|] | |]; simpl; try discriminate.
  intros H. apply (f_equal String.length) in H.
  rewrite length_string_of_list_ascii in H. unfold URL.origin_of in H.
  rewrite !length_app in H. simpl in H. lia.
Qed.

(** C5: for [Remote] and [LocalServed] the [frame-src] source list is the
    one origin of the iframe address and it is also the [postMessage]
    target (never ["*"]); for [LocalBundled] the [frame-src] list is the
    webview's [cspSource] followed by [vscode-resource:] and the target is
    ["*"].  With no https remote and [allowHttp], a demo server on the
    OS-assigned port [p] gives the address
    [http://127.0.0.1:p/index.html] and the target [http://127.0.0.1:p]. *)
Theorem embedding_policy (p : N) (remote : string)
    (Hp : (1024 <= p <= 65535)%N) (Hr : isHttpsUrl (Some remote) = false) :
  (forall wv ext rem demoUrl allowHttp,
     match resolveAppSrc_tagged wv ext rem demoUrl allowHttp with
     | Remote r | LocalServed r =>
         frameSrcCsp r = targetOrigin r /\ targetOrigin r = url_origin (src r) /\
         targetOrigin r <> "*"
     | LocalBundled r =>
         frameSrcCsp r = (cspSource wv ++ " vscode-resource:")%string /\ targetOrigin r = "*"
     end) /\
  (forall wv ext,
     resolveAppSrc_tagged wv ext remote (Some (loopback_url p)) true =
     LocalServed (mkAppSrc ("http://127.0.0.1:" ++ N_to_string p ++ "/index.html")
                           ("http://127.0.0.1:" ++ N_to_string p)
                           ("http://127.0.0.1:" ++ N_to_string p))).
Proof.
  split.
  - intros wv ext rem demoUrl allowHttp. unfold resolveAppSrc_tagged.
    destruct (isHttpsUrl (Some rem)).
    + simpl. split; [reflexivity|]. split; [reflexivity | apply url_origin_not_wildcard].
    + destruct demoUrl as [d|]; [destruct (allowHttp && negb (String.eqb d ""))|]; simpl.
      * split; [reflexivity|]. split; [reflexivity | apply url_origin_not_wildcard].
      * split; reflexivity.
      * split; reflexivity.
  - intros wv ext. unfold resolveAppSrc_tagged. rewrite Hr.
    replace (String.eqb (loopback_url p) "") with false by reflexivity.
    cbv beta iota delta [andb negb].
    rewrite loopback_origin by lia. reflexivity.
Qed.

Lemma embedding_policy_witness :
  (forall wv ext rem demoUrl allowHttp,
     match resolveAppSrc_tagged wv ext rem demoUrl allowHttp with
     | Remote r | LocalServed r =>
         frameSrcCsp r = targetOrigin r /\ targetOrigin r = url_origin (src r) /\
         targetOrigin r <> "*"
     | LocalBundled r =>
         frameSrcCsp r = (cspSource wv ++ " vscode-resource:")%string /\ targetOrigin r = "*"
     end) /\
  (forall wv ext,
     resolveAppSrc_tagged wv ext "" (Some (loopback_url 54321)) true =
     LocalServed (mkAppSrc ("http://127.0.0.1:" ++ N_to_string 54321 ++ "/index.html")
                           ("http://127.0.0.1:" ++ N_to_string 54321)
                           ("http://127.0.0.1:" ++ N_to_string 54321))).
Proof.
  apply (embedding_policy 54321 ""); [lia | reflexivity].
Defined.

(* ================================================================== *)
(** * Further properties of the code *)

(* ------------------------------------------------------------------ *)
(** ** [escapeHtml] and [getNonce] *)

Lemma replace_char_flat_map (a : ascii) (rep : list ascii) (f : ascii -> list ascii) (l : list ascii) :
  replace_char a rep (flat_map f l) = flat_map (fun c => replace_char a rep (f c)) l.
Proof.
  unfold replace_char. induction l as [|c l IH]; simpl; [reflexivity|].
  rewrite flat_map_app, IH. reflexivity.
Qed.

Lemma escapeHtml_chars_flat_map (l : list ascii) : escapeHtml_chars l = flat_map esc1 l.
Proof.
  unfold escapeHtml_chars. unfold replace_char at 5. rewrite !replace_char_flat_map.
  apply flat_map_ext. intros c.
  destruct c as [[] [] [] [] [] [] [] []]; reflexivity.
Qed.

Lemma unescape_esc1 (c : ascii) (r : list ascii) :
  unescape_chars (esc1 c ++ r) = c :: unescape_chars r.
Proof. destruct c as [[] [] [] [] [] [] [] []]; reflexivity. Qed.

Lemma unescape_escapeHtml_chars (l : list ascii) : unescape_chars (escapeHtml_chars l) = l.
Proof.
  rewrite escapeHtml_chars_flat_map. induction l as [|c l IH]; [reflexivity|].
  simpl. rewrite unescape_esc1, IH. reflexivity.
Qed.

(** [escapeHtml] loses nothing: distinct inputs give distinct outputs
    (the five character references decode back to the input). *)
Theorem escapeHtml_injective (s1 s2 : string) :
  escapeHtml s1 = escapeHtml s2 -> s1 = s2.
Proof.
  unfold escapeHtml. intros H.
  apply (f_equal list_ascii_of_string) in H. rewrite !list_ascii_of_string_of_list_ascii in H.
  apply (f_equal unescape_chars) in H. rewrite !unescape_escapeHtml_chars in H.
  rewrite <- (string_of_list_ascii_of_string s1), <- (string_of_list_ascii_of_string s2), H.
  reflexivity.
Qed.

Lemma esc1_safe (c : ascii) :
  forallb (fun d => negb (in_chars ["<"; ">"; dquote; "'"]%char d)) (esc1 c) = true.
Proof. destruct c as [[] [] [] [] [] [] [] []]; reflexivity. Qed.

Lemma esc1_plain (c : ascii) : html_special c = false -> esc1 c = [c].
Proof. destruct c as [[] [] [] [] [] [] [] []]; intros H; (reflexivity || discriminate H). Qed.

(** The output of [escapeHtml] contains none of the characters [<], [>],
    [dquote] and ['], whatever the input. *)
Theorem escapeHtml_no_markup (s : string) :
  forallb (fun d => negb (in_chars ["<"; ">"; dquote; "'"]%char d))
    (list_ascii_of_string (escapeHtml s)) = true.
Proof.
  unfold escapeHtml. rewrite list_ascii_of_string_of_list_ascii, escapeHtml_chars_flat_map.
  induction (list_ascii_of_string s) as [|c l IH]; [reflexivity|].
  cbn [flat_map]. rewrite forallb_app, esc1_safe, IH. reflexivity.
Qed.

(** [escapeHtml] leaves a string without [&], [<], [>], [dquote] and [']
    unchanged. *)
Theorem escapeHtml_plain (s : string) :
  forallb (fun c => negb (html_special c)) (list_ascii_of_string s) = true ->
  escapeHtml s = s.
Proof.
  unfold escapeHtml. rewrite escapeHtml_chars_flat_map. intros H.
  rewrite <- (string_of_list_ascii_of_string s) at 2. f_equal.
  induction (list_ascii_of_string s) as [|c l IH]; [reflexivity|].
  simpl in H |- *. apply andb_prop in H. destruct H as [Hc Hl].
  rewrite esc1_plain by (destruct (html_special c); [discriminate | reflexivity]).
  simpl. rewrite IH by exact Hl. reflexivity.
Qed.

Lemma escapeHtml_plain_witness :
  forallb (fun c => negb (html_special c)) (list_ascii_of_string "src/demo/index.html") = true /\
  escapeHtml "src/demo/index.html" = "src/demo/index.html".
Proof. split; [reflexivity | apply escapeHtml_plain; reflexivity]. Defined.

Lemma possible_alnum : forallb is_alnum (list_ascii_of_string possible) = true.
Proof. reflexivity. Qed.

Lemma charAt_possible (i : Z) :
  (0 <= i < 62)%Z ->
  exists c, charAt possible i = String c EmptyString /\ is_alnum c = true.
Proof.
  intros Hi. unfold charAt.
  replace (i <? 0)%Z with false by (symmetry; apply Z.ltb_ge; lia).
  destruct (nth_error (list_ascii_of_string possible) (Z.to_nat i)) as [c|] eqn:Hn.
  - exists c. split; [reflexivity|].
    apply nth_error_In in Hn. pose proof possible_alnum as Ha.
    rewrite forallb_forall in Ha. apply Ha. exact Hn.
  - apply nth_error_None in Hn. change (length (list_ascii_of_string possible)) with 62%nat in Hn. lia.
Qed.

Lemma string_length_append (s1 s2 : string) :
  String.length (s1 ++ s2) = (String.length s1 + String.length s2)%nat.
Proof. induction s1 as [|c s1 IH]; simpl; [reflexivity | rewrite IH; reflexivity]. Qed.

Lemma nonce_loop_spec (draw : nat -> Z) (n i : nat) (text : string) :
  (forall k, (i <= k < i + n)%nat -> (0 <= draw k < 62)%Z) ->
  String.length (nonce_loop draw n i text) = (String.length text + n)%nat /\
  forallb is_alnum (list_ascii_of_string (nonce_loop draw n i text)) =
    forallb is_alnum (list_ascii_of_string text).
Proof.
  revert i text. induction n as [|n IH]; intros i text Hd; simpl.
  - split; [lia | reflexivity].
  - destruct (charAt_possible (draw i)) as (c & Hc & Hal); [apply Hd; lia|].
    destruct (IH (S i) (text ++ charAt possible (draw i))%string) as [H1 H2];
      [intros k Hk; apply Hd; lia|].
    rewrite H1, H2, Hc, string_length_append, list_ascii_of_string_app, forallb_app. simpl.
    rewrite Hal. split; [lia | destruct (forallb is_alnum (list_ascii_of_string text)); reflexivity].
Qed.

(** When every draw [Math.floor(Math.random() * 62)] lies in [0, 61],
    [getNonce] returns 32 characters, all ASCII letters or digits. *)
Theorem getNonce_shape (draw : nat -> Z) :
  (forall k, (k < 32)%nat -> (0 <= draw k < 62)%Z) ->
  String.length (getNonce draw) = 32%nat /\
  forallb is_alnum (list_ascii_of_string (getNonce draw)) = true.
Proof.
  intros Hd. unfold getNonce.
  destruct (nonce_loop_spec draw 32 0 "") as [H1 H2]; [intros k Hk; apply Hd; lia|].
  rewrite H1, H2. split; reflexivity.
Qed.

Lemma getNonce_shape_witness :
  (forall k, (k < 32)%nat -> (0 <= Z.of_nat (k * 7 mod 62) < 62)%Z) /\
  String.length (getNonce (fun k => Z.of_nat (k * 7 mod 62))) = 32%nat /\
  forallb is_alnum (list_ascii_of_string (getNonce (fun k => Z.of_nat (k * 7 mod 62)))) = true.
Proof.
  assert (H : forall k, (k < 32)%nat -> (0 <= Z.of_nat (k * 7 mod 62) < 62)%Z).
  { intros k _. pose proof (Nat.mod_upper_bound (k * 7) 62 ltac:(lia)). lia. }
  split; [exact H | apply getNonce_shape; exact H].
Defined.

Lemma escapeHtml_injective_witness :
  escapeHtml "a<b" = escapeHtml "a<b" /\ "a<b"%string = "a<b"%string.
Proof. split; [reflexivity | apply escapeHtml_injective; reflexivity]. Defined.

(* ------------------------------------------------------------------ *)
(** ** The registry across opens and disposals *)

Lemma panels_ok_spec (w : World) (ps : list Panel) (i : nat) :
  panels_ok w i ps = true <-> forall j p, ps !! j = Some p -> panel_ok w (i + j) p = true.
Proof.
  revert i. induction ps as [|q ps IH]; intros i; simpl.
  - split; [intros _ j p H; discriminate | reflexivity].
  - rewrite andb_true_iff, IH. split.
    + intros [Hq Hr] [|j] p Hp; simpl in Hp.
      * injection Hp as <-. rewrite Nat.add_0_r. exact Hq.
      * replace (i + S j)%nat with (S i + j)%nat by lia. apply Hr. exact Hp.
    + intros H. split.
      * rewrite <- (Nat.add_0_r i). apply H. reflexivity.
      * intros j p Hp. replace (S i + j)%nat with (i + S j)%nat by lia. apply H. exact Hp.
Qed.

Lemma registry_okb_spec (w : World) : registry_okb w = true <-> registry_ok w.
Proof.
  unfold registry_okb, registry_ok. rewrite andb_true_iff, panels_ok_spec, forallb_forall.
  split; intros [HA HB]; split.
  - intros k e He.
    assert (Hin : In (k, e) (map_to_list (previewByDoc w))).
    { apply list_elem_of_In. apply elem_of_map_to_list. exact He. }
    specialize (HA _ Hin). simpl in HA. unfold entry_ok in HA.
    destruct (panels w !! entry_panel e) as [p|] eqn:Hp; [|discriminate].
    destruct (panel_on_dispose p) as [h|] eqn:Hh; [|rewrite andb_false_r in HA; discriminate].
    apply andb_true_iff in HA as [HA HC]. apply andb_true_iff in HA as [HA HD].
    apply andb_true_iff in HC as [HC HE].
    exists p, h. apply String.eqb_eq in HA, HC. apply Nat.eqb_eq in HE.
    apply negb_true_iff in HD. repeat split; assumption.
  - intros i p h Hp Hd Hh. specialize (HB i p Hp). simpl in HB.
    unfold panel_ok in HB. rewrite Hd, Hh in HB.
    destruct (previewByDoc w !! h_key h) as [e|]; [|discriminate].
    exists e. split; [reflexivity|]. apply Nat.eqb_eq. exact HB.
  - intros [k e] Hin. simpl. apply list_elem_of_In, elem_of_map_to_list in Hin.
    destruct (HA k e Hin) as (p & h & Hp & Hk & Hd & Hh & Hhk & Hhd).
    unfold entry_ok. rewrite Hp, Hk, Hd, Hh, Hhk, Hhd, String.eqb_refl, Nat.eqb_refl. reflexivity.
  - intros j p Hp. simpl. unfold panel_ok.
    destruct (panel_disposed p) eqn:Hd; [reflexivity|].
    destruct (panel_on_dispose p) as [h|] eqn:Hh; [|reflexivity].
    destruct (HB j p h Hp Hd Hh) as (e & He & Hi). rewrite He, Hi. apply Nat.eqb_refl.
Qed.

Lemma panels_stop_sub i w : panels (stop_sub i w) = panels w.
Proof. unfold stop_sub. destruct (subs w !! i); reflexivity. Qed.
Lemma previewByDoc_stop_sub i w : previewByDoc (stop_sub i w) = previewByDoc w.
Proof. unfold stop_sub. destruct (subs w !! i); reflexivity. Qed.
Lemma servers_stop_sub i w : servers (stop_sub i w) = servers w.
Proof. unfold stop_sub. destruct (subs w !! i); reflexivity. Qed.
Lemma panels_close_server i w : panels (close_server i w) = panels w.
Proof. unfold close_server. destruct (servers w !! i); reflexivity. Qed.
Lemma previewByDoc_close_server i w : previewByDoc (close_server i w) = previewByDoc w.
Proof. unfold close_server. destruct (servers w !! i); reflexivity. Qed.
Lemma subs_close_server i w : subs (close_server i w) = subs w.
Proof. unfold close_server. destruct (servers w !! i); reflexivity. Qed.

Lemma subs_stop_sub_congr j w1 w2 :
  subs w1 = subs w2 -> subs (stop_sub j w1) = subs (stop_sub j w2).
Proof. intros H. unfold stop_sub. rewrite H. destruct (subs w2 !! j); simpl; congruence. Qed.
Lemma servers_close_server_congr j w1 w2 :
  servers w1 = servers w2 -> servers (close_server j w1) = servers (close_server j w2).
Proof. intros H. unfold close_server. rewrite H. destruct (servers w2 !! j); simpl; congruence. Qed.

(** The world after the [onDidDispose] callback of a live panel with a handler. *)
Lemma dispose_panel_handler i w p h :
  panels w !! i = Some p -> panel_disposed p = false -> panel_on_dispose p = Some h ->
  let w' := snd (dispose_panel i w) in
  previewByDoc w' = delete (h_key h) (previewByDoc w) /\
  panels w' = panels (update_panel i as_disposed w) /\
  subs w' = subs (stop_sub (h_disposable h) w) /\
  servers w' = match h_demoServer h with
               | Some s => servers (close_server s w)
               | None => servers w
               end.
Proof.
  intros Hp Hd Hh w'. unfold w', dispose_panel. rewrite Hp, Hd, Hh. simpl.
  destruct (h_demoServer h) as [s|]; simpl.
  - rewrite previewByDoc_close_server, previewByDoc_stop_sub, previewByDoc_update_panel,
      panels_close_server, panels_stop_sub, subs_close_server.
    split; [reflexivity|]. split; [reflexivity|]. split.
    + apply subs_stop_sub_congr. apply subs_update_panel.
    + apply servers_close_server_congr. rewrite servers_stop_sub. apply servers_update_panel.
  - rewrite previewByDoc_stop_sub, previewByDoc_update_panel, panels_stop_sub.
    split; [reflexivity|]. split; [reflexivity|]. split.
    + apply subs_stop_sub_congr. apply subs_update_panel.
    + rewrite servers_stop_sub. apply servers_update_panel.
Qed.

(** A fresh open of a YAML document, with the demo server's listen giving
    port [p], completes and registers a new panel and subscription.  The
    panel content is the https remote with its origin when one is set;
    otherwise it is the loopback address with origin
    [http://127.0.0.1:p] if [allowHttp], and else the bundled page.  A
    server is added exactly when the remote is not https. *)
Theorem open_fresh_session (env : Env) (w : World) (d : Doc) (p : N)
    (Ha : activeEditor env = Some d) (Hy : isYaml d = true)
    (Hfresh : previewByDoc w !! doc_uri d = None)
    (Hl : listen_result env = Some p) (Hp : (1 <= p <= 65535)%N) (Hp80 : p <> 80%N) :
  let remote := cfg_get (cfg_remoteUrl env) "" in
  let w' := snd (open_cmd env w) in
  fst (open_cmd env w) = Ok tt /\
  previewByDoc w' !! doc_uri d = Some (mkEntry (length (panels w)) (length (subs w))) /\
  option_map panel_html (panels w' !! length (panels w)) =
    Some (Some (if isHttpsUrl (Some remote) then mkAppSrc remote (url_origin remote) (url_origin remote)
                else if cfg_get (cfg_allowHttp env) true then
                  mkAppSrc (loopback_url p) ("http://127.0.0.1:" ++ N_to_string p)
                           ("http://127.0.0.1:" ++ N_to_string p)
                else bundled_appsrc (new_webview env) (extensionUri env))) /\
  servers w' = (if isHttpsUrl (Some remote) then servers w
                else servers w ++ [mkServer true (Some p)]).
Proof.
  intros remote w'. unfold w'. unfold open_cmd. rewrite Ha, Hy.
  cbv beta iota delta [negb bindM getsM]. rewrite Hfresh.
  fold remote.
  assert (Hl0 : (panels w ++ [mkPanel (doc_uri d) None false 0 None]) !! length (panels w) =
                Some (mkPanel (doc_uri d) None false 0 None)).
  { apply list_lookup_middle. reflexivity. }
  destruct (isHttpsUrl (Some remote)) eqn:Hh;
    [| unfold startDemoServer; rewrite Hl]; simpl;
  (split; [reflexivity|]);
  (split; [rewrite lookup_insert_eq, !subs_update_panel; reflexivity|]);
  (split; [|rewrite !servers_update_panel; simpl; rewrite ?servers_update_panel; reflexivity]);
  match goal with
  | |- context [update_panel ?i (with_handler ?h) (set_subs ?ss (update_panel ?i (with_html ?a) ?w0))] =>
      assert (H2 : panels (update_panel i (with_handler h) (set_subs ss (update_panel i (with_html a) w0))) !! i =
                   Some (with_handler h (with_html a (mkPanel (doc_uri d) None false 0 None))));
      [apply panels_update_panel_same; apply panels_update_panel_same; exact Hl0|]
  end;
  simpl in H2 |- *; rewrite H2; simpl; unfold resolveAppSrc, resolveAppSrc_tagged; rewrite Hh;
  [reflexivity|].
  destruct (cfg_get (cfg_allowHttp env) true); simpl; [|reflexivity].
  replace (String.eqb (loopback_url p) "") with false by reflexivity. simpl.
  rewrite loopback_origin by assumption. reflexivity.
Qed.

(** With an https [remoteUrl] the open command never fails and starts no
    demo server. *)
Theorem open_https_no_server (env : Env) (w : World)
    (Hh : isHttpsUrl (Some (cfg_get (cfg_remoteUrl env) "")) = true) :
  fst (open_cmd env w) = Ok tt /\ servers (snd (open_cmd env w)) = servers w.
Proof.
  unfold open_cmd. destruct (activeEditor env) as [d|]; [|split; reflexivity].
  destruct (negb (isYaml d)); [split; reflexivity|].
  cbv beta iota delta [bindM getsM].
  destruct (previewByDoc w !! doc_uri d) as [e|].
  - simpl. rewrite servers_update_panel. split; reflexivity.
  - rewrite Hh. simpl. rewrite !servers_update_panel. simpl.
    rewrite servers_update_panel. split; reflexivity.
Qed.

(** When the open command fails, the remote is not https and the listen
    failed.  The registry and the subscriptions are unchanged.  A
    non-listening server and a panel without content and without an
    [onDidDispose] callback are left behind. *)
Theorem open_failure_leaves_orphan (env : Env) (w : World) (msg : string)
    (Hf : fst (open_cmd env w) = Throw msg) :
  let w' := snd (open_cmd env w) in
  isHttpsUrl (Some (cfg_get (cfg_remoteUrl env) "")) = false /\
  listen_result env = None /\
  previewByDoc w' = previewByDoc w /\ subs w' = subs w /\
  servers w' = servers w ++ [mkServer false None] /\
  exists d, activeEditor env = Some d /\
    panels w' = panels w ++ [mkPanel (doc_uri d) None false 0 None].
Proof.
  revert Hf. intros Hf w'. unfold w'. revert Hf.
  unfold open_cmd. destruct (activeEditor env) as [d|]; [|discriminate].
  destruct (negb (isYaml d)); [discriminate|].
  cbv beta iota delta [bindM getsM].
  destruct (previewByDoc w !! doc_uri d) as [e|]; [discriminate|].
  destruct (isHttpsUrl (Some (cfg_get (cfg_remoteUrl env) ""))); [simpl; discriminate|].
  unfold startDemoServer. destruct (listen_result env); simpl; [discriminate|].
  intros _.
  repeat split; try reflexivity. exists d. split; reflexivity.
Qed.

(** The open command never changes the registry entry of a document other
    than the active one. *)
Theorem open_other_keys (env : Env) (w : World) (k : string)
    (Hk : forall d, activeEditor env = Some d -> doc_uri d <> k) :
  previewByDoc (snd (open_cmd env w)) !! k = previewByDoc w !! k.
Proof.
  unfold open_cmd. destruct (activeEditor env) as [d|] eqn:Ha; [|reflexivity].
  specialize (Hk d eq_refl).
  destruct (negb (isYaml d)); [reflexivity|].
  cbv beta iota delta [bindM getsM].
  destruct (previewByDoc w !! doc_uri d) as [e|].
  - simpl. rewrite previewByDoc_update_panel. reflexivity.
  - destruct (isHttpsUrl (Some (cfg_get (cfg_remoteUrl env) "")));
      [| unfold startDemoServer; destruct (listen_result env)]; simpl; try reflexivity;
      rewrite lookup_insert_ne by exact Hk; rewrite !previewByDoc_update_panel; simpl; rewrite ?previewByDoc_update_panel; reflexivity.
Qed.

(** Disposing the panel of a registered session, in a consistent world,
    removes exactly that document's key from the registry.  It stops the
    session's subscription, marks the panel disposed and closes the
    session's demo server, if any. *)
Theorem dispose_registered (w : World) (Hw : registry_okb w = true) (k : string) (e : Entry)
    (He : previewByDoc w !! k = Some e) :
  let w' := snd (dispose_panel (entry_panel e) w) in
  previewByDoc w' = delete k (previewByDoc w) /\
  (forall s, subs w !! entry_disposable e = Some s ->
     subs w' !! entry_disposable e = Some (mkSub (sub_key s) (sub_delay s) false)) /\
  exists p h, panels w' !! entry_panel e = Some p /\ panel_disposed p = true /\
    panel_on_dispose p = Some h /\
    forall sv s, h_demoServer h = Some sv -> servers w !! sv = Some s ->
      servers w' !! sv = Some (mkServer false (srv_port s)).
Proof.
  intros w'. apply registry_okb_spec in Hw. destruct Hw as [HA _].
  destruct (HA k e He) as (p & h & Hp & Hk & Hd & Hh & Hhk & Hhd).
  destruct (dispose_panel_handler (entry_panel e) w p h Hp Hd Hh) as (Hr & Hps & Hss & Hsv).
  fold w' in Hr, Hps, Hss, Hsv.
  split; [rewrite Hr, Hhk; reflexivity|]. split.
  - intros s Hs. rewrite Hss. unfold stop_sub. rewrite Hhd, Hs. simpl.
    apply list_lookup_insert_eq. apply lookup_lt_is_Some_1. rewrite Hs. eauto.
  - exists (as_disposed p), h. rewrite Hps, (panels_update_panel_same _ _ _ _ Hp).
    split; [reflexivity|]. split; [reflexivity|]. split; [exact Hh|].
    intros sv s Hsv' Hs. rewrite Hsv, Hsv'. unfold close_server. rewrite Hs. simpl.
    apply list_lookup_insert_eq. apply lookup_lt_is_Some_1. rewrite Hs. eauto.
Qed.


Lemma open_cmd_fresh_registers (env : Env) (w : World) (d : Doc) :
  activeEditor env = Some d -> isYaml d = true -> previewByDoc w !! doc_uri d = None ->
  fst (open_cmd env w) = Ok tt ->
  previewByDoc (snd (open_cmd env w)) !! doc_uri d =
    Some (mkEntry (length (panels w)) (length (subs w))).
Proof.
  intros Ha Hy He. unfold open_cmd. rewrite Ha, Hy.
  cbv beta iota delta [negb bindM getsM]. rewrite He.
  destruct (isHttpsUrl (Some (cfg_get (cfg_remoteUrl env) "")));
    [| unfold startDemoServer; destruct (listen_result env)]; simpl; [| |discriminate];
    intros _; rewrite lookup_insert_eq, !subs_update_panel; reflexivity.
Qed.

(** After the panel of a registered session is disposed, opening the
    document again creates and registers a new panel. *)
Theorem reopen_after_dispose (env : Env) (w : World) (d : Doc) (e : Entry)
    (Ha : activeEditor env = Some d) (Hy : isYaml d = true)
    (Hw : registry_okb w = true) (He : previewByDoc w !! doc_uri d = Some e)
    (Hok : fst (open_cmd env (snd (dispose_panel (entry_panel e) w))) = Ok tt) :
  let w1 := snd (dispose_panel (entry_panel e) w) in
  exists e', previewByDoc (snd (open_cmd env w1)) !! doc_uri d = Some e' /\
    entry_panel e' = length (panels w) /\ entry_panel e <> entry_panel e'.
Proof.
  intros w1.
  pose proof Hw as Hw'. apply registry_okb_spec in Hw'. destruct Hw' as [HA _].
  destruct (HA _ e He) as (p & h & Hp & Hk & Hd & Hh & Hhk & Hhd).
  destruct (dispose_panel_handler (entry_panel e) w p h Hp Hd Hh) as (Hr & Hps & _).
  fold w1 in Hr, Hps.
  assert (Hfresh : previewByDoc w1 !! doc_uri d = None).
  { rewrite Hr, Hhk. apply lookup_delete_eq. }
  rewrite (open_cmd_fresh_registers env w1 d Ha Hy Hfresh Hok).
  eexists. split; [reflexivity|]. simpl.
  rewrite Hps, length_panels_update_panel. split; [reflexivity|].
  apply lookup_lt_Some in Hp. lia.
Qed.

Lemma open_fresh_session_witness :
  activeEditor (sample_env None None None (Some 54321%N)) = Some sample_doc /\
  isYaml sample_doc = true /\ previewByDoc world0 !! doc_uri sample_doc = None /\
  listen_result (sample_env None None None (Some 54321%N)) = Some 54321%N /\
  (1 <= 54321 <= 65535)%N /\ 54321%N <> 80%N /\
  let env := sample_env None None None (Some 54321%N) in
  let remote := cfg_get (cfg_remoteUrl env) "" in
  let w' := snd (open_cmd env world0) in
  fst (open_cmd env world0) = Ok tt /\
  previewByDoc w' !! doc_uri sample_doc = Some (mkEntry (length (panels world0)) (length (subs world0))) /\
  option_map panel_html (panels w' !! length (panels world0)) =
    Some (Some (if isHttpsUrl (Some remote) then mkAppSrc remote (url_origin remote) (url_origin remote)
                else if cfg_get (cfg_allowHttp env) true then
                  mkAppSrc (loopback_url 54321) ("http://127.0.0.1:" ++ N_to_string 54321)
                           ("http://127.0.0.1:" ++ N_to_string 54321)
                else bundled_appsrc (new_webview env) (extensionUri env))) /\
  servers w' = (if isHttpsUrl (Some remote) then servers world0
                else servers world0 ++ [mkServer true (Some 54321%N)]).
Proof.
  split; [reflexivity|]. split; [vm_compute; reflexivity|]. split; [reflexivity|].
  split; [reflexivity|]. split; [lia|]. split; [lia|].
  apply (open_fresh_session (sample_env None None None (Some 54321%N)) world0 sample_doc 54321%N);
    [reflexivity | vm_compute; reflexivity | reflexivity | reflexivity | lia | lia].
Defined.

Lemma open_https_no_server_witness :
  isHttpsUrl (Some (cfg_get (cfg_remoteUrl (sample_env (Some "https://ex.com/app") None None None)) "")) = true /\
  fst (open_cmd (sample_env (Some "https://ex.com/app") None None None) world0) = Ok tt /\
  servers (snd (open_cmd (sample_env (Some "https://ex.com/app") None None None) world0)) = servers world0.
Proof.
  split; [reflexivity|].
  apply (open_https_no_server (sample_env (Some "https://ex.com/app") None None None) world0).
  reflexivity.
Defined.

Lemma open_failure_leaves_orphan_witness :
  fst (open_cmd (sample_env None None None None) world0) = Throw "listen error" /\
  let w' := snd (open_cmd (sample_env None None None None) world0) in
  isHttpsUrl (Some (cfg_get (cfg_remoteUrl (sample_env None None None None)) "")) = false /\
  listen_result (sample_env None None None None) = None /\
  previewByDoc w' = previewByDoc world0 /\ subs w' = subs world0 /\
  servers w' = servers world0 ++ [mkServer false None] /\
  exists d, activeEditor (sample_env None None None None) = Some d /\
    panels w' = panels world0 ++ [mkPanel (doc_uri d) None false 0 None].
Proof.
  split; [vm_compute; reflexivity|].
  apply (open_failure_leaves_orphan (sample_env None None None None) world0 "listen error").
  vm_compute. reflexivity.
Defined.

Lemma open_other_keys_witness :
  (forall d, activeEditor (sample_env None None None (Some 54321%N)) = Some d ->
             doc_uri d <> "file:///w/other.yaml") /\
  previewByDoc opened_world !! "file:///w/other.yaml" = previewByDoc world0 !! "file:///w/other.yaml".
Proof.
  assert (Hk : forall d, activeEditor (sample_env None None None (Some 54321%N)) = Some d ->
                         doc_uri d <> "file:///w/other.yaml").
  { intros d Hd. injection Hd as <-. vm_compute. discriminate. }
  split; [exact Hk|].
  exact (open_other_keys (sample_env None None None (Some 54321%N)) world0 "file:///w/other.yaml" Hk).
Defined.

Lemma dispose_registered_witness :
  registry_okb opened_world = true /\
  previewByDoc opened_world !! doc_uri sample_doc = Some (mkEntry 0 0) /\
  let w' := snd (dispose_panel 0 opened_world) in
  previewByDoc w' = delete (doc_uri sample_doc) (previewByDoc opened_world) /\
  (forall s, subs opened_world !! 0%nat = Some s ->
     subs w' !! 0%nat = Some (mkSub (sub_key s) (sub_delay s) false)) /\
  exists p h, panels w' !! 0%nat = Some p /\ panel_disposed p = true /\
    panel_on_dispose p = Some h /\
    forall sv s, h_demoServer h = Some sv -> servers opened_world !! sv = Some s ->
      servers w' !! sv = Some (mkServer false (srv_port s)).
Proof.
  split; [vm_compute; reflexivity|]. split; [vm_compute; reflexivity|].
  apply (dispose_registered opened_world ltac:(vm_compute; reflexivity)
           (doc_uri sample_doc) (mkEntry 0 0)).
  vm_compute. reflexivity.
Defined.

Lemma reopen_after_dispose_witness :
  fst (open_cmd (sample_env None None None (Some 54321%N))
         (snd (dispose_panel 0 opened_world))) = Ok tt /\
  exists e', previewByDoc (snd (open_cmd (sample_env None None None (Some 54321%N))
                                  (snd (dispose_panel 0 opened_world)))) !! doc_uri sample_doc = Some e' /\
    entry_panel e' = length (panels opened_world) /\ 0%nat <> entry_panel e'.
Proof.
  split; [vm_compute; reflexivity|].
  apply (reopen_after_dispose (sample_env None None None (Some 54321%N)) opened_world
           sample_doc (mkEntry 0 0));
    [reflexivity | vm_compute; reflexivity | vm_compute; reflexivity
    | vm_compute; reflexivity | vm_compute; reflexivity].
Defined.

(* ------------------------------------------------------------------ *)
(** ** Posts of a session *)

Module StreamerBounds.
Import Streamer.
Import StreamerFacts.

Lemma step_owed key d st e :
  (owed (step key d st e) <= owed st + if is_change_of key e then 1 else 0)%nat.
Proof.
  unfold step. destruct e as [t u v x | t]; simpl.
  - destruct (String.eqb u key).
    + pose proof (advance_owed t st) as H. unfold owed in H |- *.
      destruct (listening (advance t st)); simpl; lia.
    + rewrite advance_owed. lia.
  - pose proof (advance_owed t st) as H. unfold owed in H |- *. cbn [posted pending]. lia.
Qed.

Lemma run_owed key d es st :
  (owed (run key d es st) <= owed st + length (List.filter (is_change_of key) es))%nat.
Proof.
  unfold run. revert st. induction es as [|e es IH]; intros st; simpl; [lia|].
  specialize (IH (step key d st e)). pose proof (step_owed key d st e).
  destruct (is_change_of key e); simpl; lia.
Qed.

(** A session posts at most one message to the webview for the initial
    send plus one per change notification of its document.  Notifications
    of other documents, and disposal, add none. *)
Theorem posts_bounded_by_changes (key : string) (d t0 v : Z) (x : string) (es : list Event) :
  (length (posted (flush (run key d es (session_start d t0 v x)))) <=
   1 + length (List.filter (is_change_of key) es))%nat.
Proof.
  rewrite flush_owed. pose proof (run_owed key d es (session_start d t0 v x)) as H.
  unfold owed at 2 in H. simpl in H. exact H.
Qed.

End StreamerBounds.
